(** * notion-agent-hub: target resolution and template substitution

    A shallow embedding of [scripts/notion_client.py] and
    [scripts/create_project.py]: the two-tier target resolver
    ([resolve_target]) and the recursive placeholder engine
    ([replace_placeholders]) together with the callers that finish the
    request body.

    Python [str] values are modelled by [string]; its elements stand for
    the code units of the text.  The only operations the scripts perform on
    text are concatenation, [len], [in] and [str.replace], none of which
    looks inside a character. *)

From Stdlib Require Import ZArith Ascii String.
From Stdlib Require Import Floats.SpecFloat.
From stdpp Require Import base option list strings gmap.

Set Warnings "-register-all".
Local Open Scope nat_scope.

(* ===================================================================== *)
(** * Python strings *)
(* ===================================================================== *)

Module PyStr.

(** [s.startswith(pre)] *)
Fixpoint startswith (s pre : string) : bool :=
  match pre with
  | "" => true
  | String a pre' =>
      match s with
      | "" => false
      | String b s' => if Ascii.eqb a b then startswith s' pre' else false
      end
  end.

(** [s[n:]] *)
Fixpoint drop (n : nat) (s : string) : string :=
  match n with
  | O => s
  | S n' => match s with "" => "" | String _ s' => drop n' s' end
  end.

(** [sub in s] on two strings: the substring test. *)
Fixpoint contains (s sub : string) : bool :=
  startswith s sub ||
  match s with
  | "" => false
  | String _ s' => contains s' sub
  end.

(** The scanning loop of [str.replace] for a non-empty pattern: [skip]
    counts the characters of a matched occurrence that are still to be
    passed over, so that occurrences are taken leftmost and never
    overlap. *)
Fixpoint replace_scan (old new : string) (skip : nat) (s : string) : string :=
  match s with
  | "" => ""
  | String c s' =>
      match skip with
      | S k => replace_scan old new k s'
      | O =>
          if startswith s old
          then new +:+ replace_scan old new (String.length old - 1) s'
          else String c (replace_scan old new 0 s')
      end
  end.

(** With an empty pattern Python inserts [new] before every character
    and at the end. *)
Fixpoint interleave (new s : string) : string :=
  match s with
  | "" => ""
  | String c s' => String c (new +:+ interleave new s')
  end.

(** [s.replace(old, new)] *)
Definition replace (s old new : string) : string :=
  match old with
  | "" => new +:+ interleave new s
  | String _ _ => replace_scan old new 0 s
  end.

(** [sep.join(parts)] *)
Fixpoint join (sep : string) (parts : list string) : string :=
  match parts with
  | [] => ""
  | [p] => p
  | p :: rest => p +:+ sep +:+ join sep rest
  end.

(** [all(f(c) for c in s)] *)
Fixpoint all (f : ascii → bool) (s : string) : bool :=
  match s with
  | "" => true
  | String c s' => f c && all f s'
  end.

(** No occurrence of [old] in [a +:+ b] starts in [a] and ends in [b]. *)
Definition splits_clean (old a b : string) : Prop :=
  ∀ a1 a2, a = a1 +:+ a2 → a2 ≠ "" →
    startswith (a2 +:+ b) old = true → startswith a2 old = true.

End PyStr.


(* ===================================================================== *)
(** * JSON documents as [json.load] returns them *)
(* ===================================================================== *)

(** A Python [dict] with string keys, in insertion order.  Keys of a
    well-formed dictionary are pairwise distinct ([PyDict.wf]). *)
Module PyDict.

Definition dict (V : Type) : Type := list (string * V).

Section ops.
Context {V : Type}.

(** [d.keys()] *)
Definition keys (d : dict V) : list string := d.*1.

Definition wf (d : dict V) : Prop := NoDup (keys d).

(** [d.get(k)] *)
Fixpoint get (k : string) (d : dict V) : option V :=
  match d with
  | [] => None
  | (k', v) :: d' => if String.eqb k k' then Some v else get k d'
  end.

(** [k in d] *)
Definition mem (k : string) (d : dict V) : bool :=
  match get k d with Some _ => true | None => false end.

(** [d[k] = v]: an existing key keeps its position, a new key goes
    last. *)
Fixpoint set (k : string) (v : V) (d : dict V) : dict V :=
  match d with
  | [] => [(k, v)]
  | (k', v') :: d' =>
      if String.eqb k k' then (k', v) :: d' else (k', v') :: set k v d'
  end.

(** [d.pop(k, None)], the dictionary that remains. *)
Fixpoint pop (k : string) (d : dict V) : dict V :=
  match d with
  | [] => []
  | (k', v') :: d' =>
      if String.eqb k k' then d' else (k', v') :: pop k d'
  end.
End ops.

End PyDict.

Abbreviation dict := PyDict.dict.

(** JSON numbers load as [int] or [float]. *)
Inductive number : Type :=
  | NInt (z : Z)
  | NFloat (f : spec_float).

Unset Elimination Schemes.
Inductive json : Type :=
  | JNull
  | JBool (b : bool)
  | JNumber (n : number)
  | JString (s : string)
  | JArray (items : list json)
  | JObject (fields : dict json).
Set Elimination Schemes.

(** Induction over a document reaches the elements of arrays and the
    values of mappings. *)
Definition json_induction (P : json → Prop)
    (Hnull : P JNull)
    (Hbool : ∀ b, P (JBool b))
    (Hnum : ∀ n, P (JNumber n))
    (Hstr : ∀ s, P (JString s))
    (Harr : ∀ items, Forall P items → P (JArray items))
    (Hobj : ∀ fields, Forall (λ kv, P kv.2) fields → P (JObject fields)) :
    ∀ j, P j :=
  fix go (j : json) : P j :=
    match j with
    | JNull => Hnull
    | JBool b => Hbool b
    | JNumber n => Hnum n
    | JString s => Hstr s
    | JArray items =>
        Harr items
          ((fix go_items (l : list json) : Forall P l :=
              match l with
              | [] => @List.Forall_nil _ P
              | x :: l' => @List.Forall_cons _ P x l' (go x) (go_items l')
              end) items)
    | JObject fields =>
        Hobj fields
          ((fix go_fields (l : dict json) : Forall (λ kv, P kv.2) l :=
              match l with
              | [] => @List.Forall_nil _ _
              | kv :: l' => @List.Forall_cons _ (λ kv, P kv.2) kv l' (go kv.2) (go_fields l')
              end) fields)
    end.

(** Nesting depth, the number of Python frames a recursive walk needs. *)
Fixpoint depth (j : json) : nat :=
  match j with
  | JArray items => S (foldr (λ x n, Nat.max (depth x) n) 0 items)
  | JObject fields => S (foldr (λ kv n, Nat.max (depth kv.2) n) 0 fields)
  | _ => 1
  end.

(* ===================================================================== *)
(** * Effects: standard error, exit status, exceptions, file reads *)
(* ===================================================================== *)

Inductive file : Type :=
  | Absent
  | Malformed
  | Parsed (j : json).

(** What the scripts see of their surroundings. *)
Record world : Type := World {
  notion_api_token : option string;   (* os.environ.get("NOTION_API_TOKEN") *)
  config_path : string;               (* str(CONFIG_PATH) *)
  config_file : file;                 (* the document at CONFIG_PATH *)
  template_path : string → string;    (* str(TEMPLATES_DIR / f"{name}.json") *)
  template_file : string → file;      (* the document at that path *)
  today : string;                     (* date.today().isoformat() *)
  pages_create : json → option json;      (* the service's answer, if any *)
  databases_create : json → option json;
}.

Inductive exn : Type :=
  | JSONDecodeError
  | FileNotFoundError
  | AttributeError
  | TypeError
  | KeyError
  | APIResponseError.

Inductive event : Type :=
  | EvExists (path : string) (found : bool)   (* Path.exists() *)
  | EvLoad (path : string)                    (* open(path) and json.load *)
  | EvStderr (line : string)                  (* print(..., file=sys.stderr) *)
  | EvStdoutJson (j : json)                   (* print(json.dumps(j, ...)) *)
  | EvPagesCreate (body : json)               (* client.pages.create, body as keywords *)
  | EvDatabasesCreate (body : json).          (* client.databases.create, body as keywords *)

Inductive outcome (A : Type) : Type :=
  | Return (a : A)
  | SysExit (code : Z)
  | Raise (e : exn).
Arguments Return {A} a.
Arguments SysExit {A} code.
Arguments Raise {A} e.

(** A run is the events it performed, in order, and how it ended. *)
Definition io (A : Type) : Type := list event * outcome A.

Definition io_ret {A} (a : A) : io A := ([], Return a).

Definition io_bind {A B} (f : A → io B) (m : io A) : io B :=
  match m with
  | (t, Return a) => let '(t', o) := f a in (t ++ t', o)
  | (t, SysExit c) => (t, SysExit c)
  | (t, Raise e) => (t, Raise e)
  end.

#[global] Instance io_mret : MRet io := @io_ret.
#[global] Instance io_mbind : MBind io := @io_bind.

Definition emit (e : event) : io unit := ([e], Return tt).
Definition print_err (line : string) : io unit := emit (EvStderr line).
Definition sys_exit {A} (code : Z) : io A := ([], SysExit code).
Definition raise {A} (e : exn) : io A := ([], Raise e).

(** [path.exists()] *)
Definition path_exists (path : string) (f : file) : io bool :=
  let found := match f with Absent => false | _ => true end in
  emit (EvExists path found);; mret found.

(** [with open(path) as f: json.load(f)] *)
Definition json_load (path : string) (f : file) : io json :=
  match f with
  | Absent => raise FileNotFoundError
  | Malformed => emit (EvLoad path);; raise JSONDecodeError
  | Parsed j => emit (EvLoad path);; mret j
  end.

(** ** Dynamically typed operations on loaded values *)

(** [obj.get(key, default)] *)
Definition py_get (obj : json) (key : string) (dflt : json) : io json :=
  match obj with
  | JObject d => mret (default dflt (PyDict.get key d))
  | _ => raise AttributeError
  end.

(** [name in container] for a string [name] *)
Definition py_in (name : string) (container : json) : io bool :=
  match container with
  | JObject d => mret (PyDict.mem name d)
  | JArray items =>
      mret (existsb (λ x, match x with
                           | JString s => String.eqb name s
                           | _ => false
                           end) items)
  | JString s => mret (PyStr.contains s name)
  | _ => raise TypeError
  end.

(** [obj.keys()] *)
Definition py_keys (obj : json) : io (list string) :=
  match obj with
  | JObject d => mret (PyDict.keys d)
  | _ => raise AttributeError
  end.

(** [obj[key]] for a string [key] *)
Definition py_getitem (obj : json) (key : string) : io json :=
  match obj with
  | JObject d =>
      match PyDict.get key d with
      | Some v => mret v
      | None => raise KeyError
      end
  | _ => raise TypeError
  end.

(** [obj[key] = value] for a string [key] *)
Definition py_setitem (obj : json) (key : string) (value : json) : io json :=
  match obj with
  | JObject d => mret (JObject (PyDict.set key value d))
  | _ => raise TypeError
  end.

(** [obj.pop(key, None)] for a string [key] *)
Definition py_pop (obj : json) (key : string) : io json :=
  match obj with
  | JObject d => mret (JObject (PyDict.pop key d))
  | JArray _ => raise TypeError
  | _ => raise AttributeError
  end.

(** [len(cleaned) == 32 and all(c in "0123456789abcdef" for c in cleaned)] *)
Definition is_raw_id (cleaned : string) : bool :=
  (String.length cleaned =? 32) &&
  PyStr.all (λ c, PyStr.contains "0123456789abcdef" (String c "")) cleaned.

(** A call that unpacks the body into keyword arguments, on an endpoint
    of the client, each declared as [def method(self, **kwargs)]: the
    items of the body are bound as keywords before the method runs.  A body that is not a
    mapping is refused, and so is a key [self], which the receiver of the
    call already fills; both end in TypeError with no request made. *)
Definition keywords (body : json) : io (dict json) :=
  match body with
  | JObject d => if PyDict.mem "self" d then raise TypeError else mret d
  | _ => raise TypeError
  end.

(** A call of the remote client with the body as keywords: once the
    keywords are bound the body is forwarded, and the service answers or
    the client raises. *)
Definition remote {A} (call : json → event) (answer : json → option A)
    (body : json) : io A :=
  keywords body;;
  emit (call body);;
  match answer body with
  | Some r => mret r
  | None => raise APIResponseError
  end.

(** [if x:] on an optional string argument *)
Definition truthy (x : option string) : bool :=
  match x with
  | Some (String _ _) => true
  | _ => false
  end.

(* ===================================================================== *)
(** * scripts/notion_client.py *)
(* ===================================================================== *)

Module NotionClient.

Definition get_client (w : world) : io unit :=
  if negb (truthy (notion_api_token w)) then
    print_err "Error: NOTION_API_TOKEN is not set. See .env.example.";;
    sys_exit 1
  else mret tt.

Definition load_config (w : world) : io json :=
  found ← path_exists (config_path w) (config_file w);
  if negb found then
    print_err ("Error: Config not found at " +:+ config_path w);;
    sys_exit 1
  else json_load (config_path w) (config_file w).

Definition resolve_target (w : world) (name : string) : io json :=
  let cleaned := PyStr.replace name "-" "" in
  if is_raw_id cleaned then mret (JString name)
  else
    config ← load_config w;
    targets ← py_get config "targets" (JObject []);
    known ← py_in name targets;
    if negb known then
      print_err ("Error: Target '" +:+ name +:+ "' not found in notion-config.json");;
      names ← py_keys targets;
      print_err ("Available targets: " +:+ PyStr.join ", " names);;
      sys_exit 1
    else
      entry ← py_getitem targets name;
      py_getitem entry "id".

Definition load_template (w : world) (name : string) : io json :=
  found ← path_exists (template_path w name) (template_file w name);
  if negb found then
    print_err ("Error: Template '" +:+ name +:+ "' not found at "
               +:+ template_path w name);;
    sys_exit 1
  else json_load (template_path w name) (template_file w name).

(** The body built when no template is named. *)
Definition default_page_body (title : option string) : json :=
  let content := match title with
                 | Some (String c t) => String c t
                 | _ => "Untitled"
                 end in
  JObject
    [("properties",
      JObject [("title",
        JObject [("title",
          JArray [JObject [("type", JString "text");
                           ("text", JObject [("content", JString content)])]])])]);
     ("children", JArray [])].

Definition default_db_body (title : option string) : json :=
  let content := match title with
                 | Some (String c t) => String c t
                 | _ => "Untitled Database"
                 end in
  JObject
    [("title",
      JArray [JObject [("type", JString "text");
                       ("text", JObject [("content", JString content)])]]);
     ("properties", JObject [("Name", JObject [("title", JObject [])])])].

Definition cmd_create_page (w : world)
    (target : string) (template title : option string) : io unit :=
  get_client w;;
  parent_id ← resolve_target w target;
  body ← (if truthy template
          then load_template w (default "" template)
          else mret (default_page_body title));
  body ← py_setitem body "parent" (JObject [("page_id", parent_id)]);
  result ← remote EvPagesCreate (pages_create w) body;
  emit (EvStdoutJson result).

Definition cmd_create_db (w : world)
    (target : string) (template title : option string) : io unit :=
  get_client w;;
  parent_id ← resolve_target w target;
  body ← (if truthy template
          then load_template w (default "" template)
          else mret (default_db_body title));
  body ← py_setitem body "parent" (JObject [("page_id", parent_id)]);
  body ← py_pop body "object";
  result ← remote EvDatabasesCreate (databases_create w) body;
  emit (EvStdoutJson result).

End NotionClient.

(* ===================================================================== *)
(** * scripts/create_project.py *)
(* ===================================================================== *)

Module CreateProject.

Definition get_client (w : world) : io unit :=
  if negb (truthy (notion_api_token w)) then
    print_err "Error: NOTION_API_TOKEN is not set. See .env.example.";;
    sys_exit 1
  else mret tt.

Definition resolve_target (w : world) (name : string) : io json :=
  let cleaned := PyStr.replace name "-" "" in
  if is_raw_id cleaned then mret (JString name)
  else
    found ← path_exists (config_path w) (config_file w);
    if negb found then
      print_err ("Error: Config not found at " +:+ config_path w);;
      sys_exit 1
    else
      config ← json_load (config_path w) (config_file w);
      targets ← py_get config "targets" (JObject []);
      known ← py_in name targets;
      if negb known then
        print_err ("Error: Target '" +:+ name +:+ "' not found in notion-config.json");;
        names ← py_keys targets;
        print_err ("Available targets: " +:+ PyStr.join ", " names);;
        sys_exit 1
      else
        entry ← py_getitem targets name;
        py_getitem entry "id".

Definition load_template (w : world) (name : string) : io json :=
  found ← path_exists (template_path w name) (template_file w name);
  if negb found then
    print_err ("Error: Template '" +:+ name +:+ "' not found at "
               +:+ template_path w name);;
    sys_exit 1
  else json_load (template_path w name) (template_file w name).

(** The f-string [f"{{{{{key}}}}}"]: two braces, the key, two braces. *)
Definition placeholder (key : string) : string := "{{" +:+ key +:+ "}}".

(** The loop over [replacements.items()] on one string. *)
Definition replace_in_string (obj : string) (replacements : dict string) : string :=
  foldl (λ obj kv, PyStr.replace obj (placeholder kv.1) kv.2) obj replacements.

Fixpoint replace_placeholders (obj : json) (replacements : dict string) : json :=
  match obj with
  | JString s => JString (replace_in_string s replacements)
  | JArray items =>
      JArray (map (λ item, replace_placeholders item replacements) items)
  | JObject fields =>
      JObject (map (λ kv, (kv.1, replace_placeholders kv.2 replacements)) fields)
  | _ => obj
  end.

(** [copy.deepcopy]: on documents taken as values, the copy is equal to
    the original.  Lists and dicts as objects with an identity are the
    subject of [PyHeap] below. *)
Definition deepcopy (j : json) : json := j.

Definition create_project_page (w : world)
    (parent_id : json) (project_name template_name icon : string) : io json :=
  template ← load_template w template_name;
  let body := deepcopy template in
  let replacements := [("PROJECT_NAME", project_name); ("DATE", today w)] in
  let body := replace_placeholders body replacements in
  body ← py_setitem body "parent" (JObject [("page_id", parent_id)]);
  body ← py_setitem body "icon"
           (JObject [("type", JString "emoji"); ("emoji", JString icon)]);
  body ← py_pop body "object";
  remote EvPagesCreate (pages_create w) body.

End CreateProject.

(* ===================================================================== *)
(** * The remaining subcommands and the entry point of create_project.py *)
(* ===================================================================== *)

(** The subcommands that send no template: they parse a JSON argument of
    the command line, call the service and print to standard output.  The
    parser [json.loads], the answers of the service and the text form of a
    value that is not a string are not part of the scripts: a [setting]
    supplies them. *)
Module Cli.

Inductive request : Type :=
  | PagesUpdate (page_id properties : json)       (* client.pages.update *)
  | DatabasesQuery (kwargs : dict json)           (* client.databases.query *)
  | BlocksChildrenAppend (block_id children : json)  (* client.blocks.children.append *)
  | PagesRetrieve (page_id : json).               (* client.pages.retrieve *)

Inductive step : Type :=
  | Did (e : event)          (* an event of the functions above *)
  | Asked (r : request)      (* a call of the service *)
  | Printed (line : string). (* print(line) *)

Record setting : Type := Setting {
  json_loads : string → option json;   (* json.loads; None when it raises *)
  answer : request → option json;      (* the service's answer, if any *)
  py_str : json → string;              (* str(x) for x not a string *)
}.

Definition run (A : Type) : Type := list step * outcome A.

Definition run_ret {A} (a : A) : run A := ([], Return a).

Definition run_bind {A B} (f : A → run B) (m : run A) : run B :=
  match m with
  | (t, Return a) => let '(t', o) := f a in (t ++ t', o)
  | (t, SysExit c) => (t, SysExit c)
  | (t, Raise e) => (t, Raise e)
  end.

#[global] Instance run_mret : MRet run := @run_ret.
#[global] Instance run_mbind : MBind run := @run_bind.

(** A function of the two scripts, run as part of a subcommand. *)
Definition lift {A} (m : io A) : run A := (Did <$> m.1, m.2).

Definition ask (e : setting) (r : request) : run json :=
  ([Asked r],
   match answer e r with
   | Some result => Return result
   | None => Raise APIResponseError
   end).

(** [json.loads(text)] *)
Definition loads (e : setting) (text : string) : run json :=
  ([],
   match json_loads e text with
   | Some j => Return j
   | None => Raise JSONDecodeError
   end).

Definition print (line : string) : run unit := ([Printed line], Return tt).

(** [print(json.dumps(result, indent=2, default=str))] *)
Definition print_dumps (result : json) : run unit :=
  lift (emit (EvStdoutJson result)).

(** A value inside an f-string. *)
Definition format (e : setting) (v : json) : string :=
  match v with
  | JString s => s
  | _ => py_str e v
  end.

(** ** notion_client.py *)

Definition cmd_update_page (e : setting) (w : world)
    (target properties : string) : run unit :=
  lift (NotionClient.get_client w);;
  page_id ← lift (NotionClient.resolve_target w target);
  properties ← loads e properties;
  result ← ask e (PagesUpdate page_id properties);
  print_dumps result.

Definition cmd_query_db (e : setting) (w : world)
    (target : string) (filter sorts : option string) : run unit :=
  lift (NotionClient.get_client w);;
  db_id ← lift (NotionClient.resolve_target w target);
  let kwargs := [("database_id", db_id)] in
  kwargs ← (if truthy filter
            then parsed ← loads e (default "" filter);
                 mret (PyDict.set "filter" parsed kwargs)
            else mret kwargs);
  kwargs ← (if truthy sorts
            then parsed ← loads e (default "" sorts);
                 mret (PyDict.set "sorts" parsed kwargs)
            else mret kwargs);
  result ← ask e (DatabasesQuery kwargs);
  print_dumps result.

Definition cmd_append_blocks (e : setting) (w : world)
    (target blocks : string) : run unit :=
  lift (NotionClient.get_client w);;
  page_id ← lift (NotionClient.resolve_target w target);
  children ← loads e blocks;
  result ← ask e (BlocksChildrenAppend page_id children);
  print_dumps result.

Definition cmd_get_page (e : setting) (w : world) (target : string) : run unit :=
  lift (NotionClient.get_client w);;
  page_id ← lift (NotionClient.resolve_target w target);
  page ← ask e (PagesRetrieve page_id);
  print_dumps page.

(** ** create_project.py *)

(** [main] once the command line is parsed: the project name, [--parent],
    [--template] and [--icon] with their defaults filled in. *)
Definition main (e : setting) (w : world)
    (name parent template icon : string) : run json :=
  lift (CreateProject.get_client w);;
  parent_id ← lift (CreateProject.resolve_target w parent);
  print ("Creating project page: " +:+ name);;
  print ("  Parent: " +:+ parent +:+ " (" +:+ format e parent_id +:+ ")");;
  print ("  Template: " +:+ template);;
  print ("  Icon: " +:+ icon);;
  print "";;
  result ← lift (CreateProject.create_project_page w parent_id name template icon);
  page_id ← lift (py_getitem result "id");
  url ← lift (py_get result "url" (JString ""));
  print "Project page created!";;
  print ("  ID:  " +:+ format e page_id);;
  print ("  URL: " +:+ format e url);;
  mret result.

(** ** What a run did *)

Definition events (trace : list step) : list event :=
  omap (λ s, match s with Did ev => Some ev | _ => None end) trace.

Definition requests (trace : list step) : list request :=
  omap (λ s, match s with Asked r => Some r | _ => None end) trace.

Definition printed (trace : list step) : list string :=
  omap (λ s, match s with Printed line => Some line | _ => None end) trace.

(** The bodies a run handed to [client.databases.create]. *)
Definition databases_forwarded (trace : list event) : list json :=
  omap (λ ev, match ev with EvDatabasesCreate body => Some body | _ => None end)
    trace.

(** The probes and reads of files. *)
Definition file_accesses (trace : list event) : list event :=
  List.filter
    (λ ev, match ev with EvExists _ _ | EvLoad _ => true | _ => false end)
    trace.

(** How a run that did not return ended, whatever it would have
    returned. *)
Definition failure {A B} (o : outcome A) : option (outcome B) :=
  match o with
  | Return _ => None
  | SysExit c => Some (SysExit c)
  | Raise x => Some (Raise x)
  end.

End Cli.

(* ===================================================================== *)
(** * Documents as Python objects: lists and dicts in a store *)
(* ===================================================================== *)

(** Strings, numbers, booleans and [None] are immutable and are held by
    value; a [list] or a [dict] is an object of the store and is held by
    reference, so two holders of one reference see each other's updates. *)
Module PyHeap.

Inductive pyval : Type :=
  | VNone
  | VBool (b : bool)
  | VNum (n : number)
  | VStr (s : string)
  | VRef (l : nat).

Inductive pyobj : Type :=
  | OList (items : list pyval)
  | ODict (fields : dict pyval).

Abbreviation heap := (gmap nat pyobj).

(** A new object is placed at an address not in use. *)
Definition alloc (o : pyobj) (h : heap) : nat * heap :=
  let l := fresh (dom h) in (l, <[l := o]> h).

Section traverse.
Context (f : pyval → heap → option pyval * heap).

(** [[f(item) for item in items]] *)
Fixpoint map_items (items : list pyval) (h : heap) : option (list pyval) * heap :=
  match items with
  | [] => (Some [], h)
  | x :: rest =>
      match f x h with
      | (Some x', h1) =>
          match map_items rest h1 with
          | (Some rest', h2) => (Some (x' :: rest'), h2)
          | (None, h2) => (None, h2)
          end
      | (None, h1) => (None, h1)
      end
  end.

(** [{k: f(v) for k, v in fields.items()}] *)
Fixpoint map_fields (fields : dict pyval) (h : heap) : option (dict pyval) * heap :=
  match fields with
  | [] => (Some [], h)
  | (k, x) :: rest =>
      match f x h with
      | (Some x', h1) =>
          match map_fields rest h1 with
          | (Some rest', h2) => (Some ((k, x') :: rest'), h2)
          | (None, h2) => (None, h2)
          end
      | (None, h1) => (None, h1)
      end
  end.
End traverse.

(** [replace_placeholders] of [create_project.py] on stored objects.
    [limit] is the number of nested calls the interpreter still allows;
    [None] stands for the exception raised when it is used up. *)
Fixpoint replace_placeholders (limit : nat) (obj : pyval)
    (replacements : dict string) (h : heap) : option pyval * heap :=
  match limit with
  | O => (None, h)
  | S limit' =>
      match obj with
      | VStr s => (Some (VStr (CreateProject.replace_in_string s replacements)), h)
      | VRef l =>
          match h !! l with
          | Some (OList items) =>
              match map_items
                      (λ item, replace_placeholders limit' item replacements)
                      items h with
              | (Some items', h1) =>
                  let '(l', h2) := alloc (OList items') h1 in (Some (VRef l'), h2)
              | (None, h1) => (None, h1)
              end
          | Some (ODict fields) =>
              match map_fields
                      (λ item, replace_placeholders limit' item replacements)
                      fields h with
              | (Some fields', h1) =>
                  let '(l', h2) := alloc (ODict fields') h1 in (Some (VRef l'), h2)
              | (None, h1) => (None, h1)
              end
          | None => (None, h)
          end
      | _ => (Some obj, h)
      end
  end.

(** The document a value stands for, read through the store. *)
Fixpoint reify (limit : nat) (h : heap) (v : pyval) : option json :=
  match limit with
  | O => None
  | S limit' =>
      match v with
      | VNone => Some JNull
      | VBool b => Some (JBool b)
      | VNum n => Some (JNumber n)
      | VStr s => Some (JString s)
      | VRef l =>
          match h !! l with
          | Some (OList items) => JArray <$> mapM (reify limit' h) items
          | Some (ODict fields) =>
              JObject <$> mapM (λ kv, pair kv.1 <$> reify limit' h kv.2) fields
          | None => None
          end
      end
  end.

(** The objects [json.load] builds for a document. *)
Section store.
Context (f : json → heap → pyval * heap).

Fixpoint store_items (l : list json) (h : heap) : list pyval * heap :=
  match l with
  | [] => ([], h)
  | x :: l' =>
      let '(v, h1) := f x h in
      let '(vs, h2) := store_items l' h1 in
      (v :: vs, h2)
  end.

Fixpoint store_fields (l : dict json) (h : heap) : dict pyval * heap :=
  match l with
  | [] => ([], h)
  | kv :: l' =>
      let '(v, h1) := f kv.2 h in
      let '(vs, h2) := store_fields l' h1 in
      ((kv.1, v) :: vs, h2)
  end.
End store.

Fixpoint store (j : json) (h : heap) : pyval * heap :=
  match j with
  | JNull => (VNone, h)
  | JBool b => (VBool b, h)
  | JNumber n => (VNum n, h)
  | JString s => (VStr s, h)
  | JArray items =>
      let '(vs, h1) := store_items store items h in
      let '(l, h2) := alloc (OList vs) h1 in (VRef l, h2)
  | JObject fields =>
      let '(vs, h1) := store_fields store fields h in
      let '(l, h2) := alloc (ODict vs) h1 in (VRef l, h2)
  end.

(** Storing leaves the store as it was and the document can be read
    back within its depth. *)
Definition stored_well (j : json) : Prop :=
  ∀ h, h ⊆ (store j h).2 ∧
       reify (depth j) (store j h).2 (store j h).1 = Some j.

End PyHeap.

(* ===================================================================== *)
(** * The request body as an object of the store *)
(* ===================================================================== *)

(** What [create_project_page] does to [body] after it copied the
    template, on objects: the substitution, the two assignments and the
    [pop].  [None] stands for an exception, as in [PyHeap]. *)
Module PyBody.
Import PyHeap.

(** A dict display [{k: v, ...}]: a new object. *)
Definition new_dict (fields : dict pyval) (h : heap) : pyval * heap :=
  let '(l, h') := alloc (ODict fields) h in (VRef l, h').

(** [obj[key] = value]: the dict is updated in place. *)
Definition setitem (obj : pyval) (key : string) (value : pyval) (h : heap)
    : option unit * heap :=
  match obj with
  | VRef l =>
      match h !! l with
      | Some (ODict fields) =>
          (Some tt, <[l := ODict (PyDict.set key value fields)]> h)
      | _ => (None, h)
      end
  | _ => (None, h)
  end.

(** [obj.pop(key, None)]: the dict is updated in place. *)
Definition pop (obj : pyval) (key : string) (h : heap) : option unit * heap :=
  match obj with
  | VRef l =>
      match h !! l with
      | Some (ODict fields) => (Some tt, <[l := ODict (PyDict.pop key fields)]> h)
      | _ => (None, h)
      end
  | _ => (None, h)
  end.

Definition create_project_page_body (limit : nat) (body parent_id : pyval)
    (project_name today icon : string) (h : heap) : option pyval * heap :=
  let replacements := [("PROJECT_NAME", project_name); ("DATE", today)] in
  match replace_placeholders limit body replacements h with
  | (None, h) => (None, h)
  | (Some body, h) =>
      let '(parent, h) := new_dict [("page_id", parent_id)] h in
      match setitem body "parent" parent h with
      | (None, h) => (None, h)
      | (Some _, h) =>
          let '(emoji, h) :=
            new_dict [("type", VStr "emoji"); ("emoji", VStr icon)] h in
          match setitem body "icon" emoji h with
          | (None, h) => (None, h)
          | (Some _, h) =>
              match pop body "object" h with
              | (None, h) => (None, h)
              | (Some _, h) => (Some body, h)
              end
          end
      end
  end.

(** What an in-place update of a new object leaves alone. *)
Definition keeps (h0 : heap) (f : heap → option unit * heap) : Prop :=
  ∀ h, h0 ⊆ h → h0 ⊆ (f h).2.

(** The entries of a stored dict stand for the entries of a mapping. *)
Definition entries_stand_for (n : nat) (h : heap)
    (fields : dict pyval) (js : dict json) : Prop :=
  Forall2 (λ kv km, pair kv.1 <$> reify n h kv.2 = Some km) fields js.

End PyBody.

(* ===================================================================== *)
(** * The vocabulary of the specification *)
(* ===================================================================== *)

Module Spec.

Fixpoint chars (s : string) : list ascii :=
  match s with
  | "" => []
  | String c s' => c :: chars s'
  end.

(** [0-9a-f] *)
Definition lowercase_hex (c : ascii) : Prop :=
  (48 ≤ N_of_ascii c ≤ 57)%N ∨ (97 ≤ N_of_ascii c ≤ 102)%N.

(** The name with every dash taken out. *)
Fixpoint without_dashes (s : string) : string :=
  match s with
  | "" => ""
  | String c s' =>
      if Ascii.eqb c "-" then without_dashes s' else String c (without_dashes s')
  end.

(** A raw identifier: 32 lowercase hexadecimal digits once the dashes
    are removed. *)
Definition hex32_shape (name : string) : Prop :=
  String.length (without_dashes name) = 32 ∧
  Forall lowercase_hex (chars (without_dashes name)).

(** The targets sub-mapping of a configuration object, empty when the
    key is missing. *)
Definition targets_of (config : dict json) : json :=
  default (JObject []) (PyDict.get "targets" config).

(** ** Error reports, as the scripts deliver them: the lines on standard
    error and exit status 1. *)

Definition ConfigNotFoundError (w : world) : list event * outcome json :=
  ([EvExists (config_path w) false;
    EvStderr ("Error: Config not found at " +:+ config_path w)],
   SysExit 1).

Definition UnknownTargetError (w : world) (name : string)
    (known : list string) : list event * outcome json :=
  ([EvExists (config_path w) true;
    EvLoad (config_path w);
    EvStderr ("Error: Target '" +:+ name +:+ "' not found in notion-config.json");
    EvStderr ("Available targets: " +:+ PyStr.join ", " known)],
   SysExit 1).

(** The bodies a run handed to [client.pages.create]. *)
Definition pages_forwarded (trace : list event) : list json :=
  omap (λ e, match e with EvPagesCreate body => Some body | _ => None end) trace.

(** ** Placeholders *)

(** [{{key}}] *)
Definition token (key : string) : string := "{{" +:+ key +:+ "}}".

(** [sub] occurs somewhere in [s]. *)
Definition occurs (sub s : string) : Prop :=
  ∃ before after, s = before +:+ sub +:+ after.

(** No occurrence of [sub] in [before +:+ rest] starts inside a
    non-empty [before]: the text at the end of [before] is then the first
    place where [sub] can be found. *)
Fixpoint none_starts_in (sub before rest : string) : Prop :=
  match before with
  | "" => True
  | String c before' =>
      PyStr.startswith (before +:+ rest) sub = false ∧
      none_starts_in sub before' rest
  end.

(** One pass for one pattern: the occurrences of [old], taken from the
    left and not overlapping, each give way to [new]. *)
Inductive replaced_all (old new : string) : string → string → Prop :=
  | replaced_none s :
      ¬ occurs old s →
      replaced_all old new s s
  | replaced_next before s t :
      none_starts_in old before (old +:+ s) →
      replaced_all old new s t →
      replaced_all old new (before +:+ old +:+ s) (before +:+ new +:+ t).

(** The passes for the entries of a replacement set, one after another
    in iteration order, each on the string the previous one produced. *)
Inductive applied_in_order : dict string → string → string → Prop :=
  | applied_nil s :
      applied_in_order [] s s
  | applied_cons key value rest s s1 t :
      replaced_all (token key) value s s1 →
      applied_in_order rest s1 t →
      applied_in_order ((key, value) :: rest) s t.

(** Two documents of one structure: the same kinds of node, the same
    keys in the same order, the same sequence lengths and the same
    numbers, booleans and nulls; their string leaves are related by [R]. *)
Inductive leafwise (R : string → string → Prop) : json → json → Prop :=
  | leafwise_null : leafwise R JNull JNull
  | leafwise_bool b : leafwise R (JBool b) (JBool b)
  | leafwise_number n : leafwise R (JNumber n) (JNumber n)
  | leafwise_string s t : R s t → leafwise R (JString s) (JString t)
  | leafwise_array xs ys :
      Forall2 (leafwise R) xs ys →
      leafwise R (JArray xs) (JArray ys)
  | leafwise_object fs gs :
      Forall2 (λ f g, f.1 = g.1 ∧ leafwise R f.2 g.2) fs gs →
      leafwise R (JObject fs) (JObject gs).

(** The string leaves of a document; mapping keys are not among them. *)
Fixpoint string_leaves (j : json) : list string :=
  match j with
  | JString s => [s]
  | JArray items => flat_map string_leaves items
  | JObject fields => flat_map (λ kv, string_leaves kv.2) fields
  | _ => []
  end.

(** No token of the replacement set occurs in a leaf of the document. *)
Definition no_key_matches (doc : json) (replacements : dict string) : Prop :=
  ∀ s key, s ∈ string_leaves doc → key ∈ PyDict.keys replacements →
    ¬ occurs (token key) s.

(** A string that holds no opening brace. *)
Definition no_open (s : string) : Prop :=
  Forall (λ c, c ≠ "{"%char) (chars s).

(** A key that holds no brace. *)
Definition brace_free (key : string) : Prop :=
  Forall (λ c, c ≠ "{"%char ∧ c ≠ "}"%char) (chars key).

#[global] Instance brace_free_dec (key : string) : Decision (brace_free key).
Proof. unfold brace_free. apply _. Defined.

(** ** Simultaneous substitution, for comparison: one scan of the
    original string in which the first key whose token starts at the
    current position is replaced and its value is not looked at again. *)

Fixpoint first_match (s : string) (replacements : dict string)
    : option (string * string) :=
  match replacements with
  | [] => None
  | (k, v) :: rest =>
      if PyStr.startswith s (token k) then Some (token k, v)
      else first_match s rest
  end.

Fixpoint simultaneous_scan (replacements : dict string) (skip : nat)
    (s : string) : string :=
  match s with
  | "" => ""
  | String c s' =>
      match skip with
      | S k => simultaneous_scan replacements k s'
      | O =>
          match first_match s replacements with
          | Some (tok, v) =>
              v +:+ simultaneous_scan replacements (String.length tok - 1) s'
          | None => String c (simultaneous_scan replacements 0 s')
          end
      end
  end.

Definition simultaneous (s : string) (replacements : dict string) : string :=
  simultaneous_scan replacements 0 s.

End Spec.

(* ===================================================================== *)
(** * Sample surroundings *)
(* ===================================================================== *)

Module Sample.

Definition targets : dict json :=
  [("project-db", JObject [("id", JString "xyz"); ("type", JString "database")]);
   ("inbox", JObject [("id", JString "0f0e0d0c0b0a09080706050403020100")])].

Definition config_fields : dict json := [("targets", JObject targets)].

Definition config : json := JObject config_fields.

Definition project_fields : dict json :=
  [("object", JString "page");
   ("properties",
    JObject [("title",
      JObject [("title",
        JArray [JObject [("text",
          JObject [("content", JString "{{PROJECT_NAME}}")])]])])]);
   ("children",
    JArray [JString "{{PROJECT_NAME}} Launch";
            JString "Started {{DATE}} by {{OTHER}}";
            JNumber (NInt 3); JBool true; JNull])].

Definition project_page : json := JObject project_fields.

(** What a test reads off a forwarded body. *)
Definition digest (body : json) : option json * option json * option json :=
  match body with
  | JObject d => (PyDict.get "icon" d, PyDict.get "object" d, PyDict.get "children" d)
  | _ => (None, None, None)
  end.

Definition files (name : string) : file :=
  if String.eqb name "project-page" then Parsed project_page else Absent.

Definition answer (body : json) : option json :=
  Some (JObject [("id", JString "page-1"); ("url", JString "https://example.invalid/page-1")]).

Definition with_config (f : file) : world :=
  {| notion_api_token := Some "secret";
     config_path := "/repo/notion-config.json";
     config_file := f;
     template_path := λ name, "/repo/templates/" +:+ name +:+ ".json";
     template_file := files;
     today := "2024-01-15";
     pages_create := answer;
     databases_create := answer |}.

Definition here : world := with_config (Parsed config).

(** A configuration without a [targets] key. *)
Definition bare : world :=
  with_config (Parsed (JObject [("version", JNumber (NInt 1))])).

Definition raw_id : string := "a1b2c3d4-e5f6-7890-abcd-ef1234567890".

Definition replacements : dict string :=
  [("PROJECT_NAME", "Apollo"); ("DATE", "2024-01-15")].

End Sample.

(** A setting for the subcommands. *)
Module SampleCli.

Definition loads (text : string) : option json :=
  if String.eqb text "{}" then Some (JObject [])
  else if String.eqb text "[]" then Some (JArray [])
  else None.

Definition desk : Cli.setting :=
  {| Cli.json_loads := loads;
     Cli.answer := λ _, Some (JObject [("id", JString "page-1")]);
     Cli.py_str := λ _, "?" |}.

(** The sample surroundings without a token. *)
Definition keyless : world :=
  {| notion_api_token := None;
     config_path := config_path Sample.here;
     config_file := config_file Sample.here;
     template_path := template_path Sample.here;
     template_file := template_file Sample.here;
     today := today Sample.here;
     pages_create := pages_create Sample.here;
     databases_create := databases_create Sample.here |}.

End SampleCli.

(** The sample surroundings with a template that has a top-level key
    [self]. *)
Module SampleSelf.

Definition fields : dict json := ("self", JString "me") :: Sample.project_fields.

Definition there : world :=
  {| notion_api_token := notion_api_token Sample.here;
     config_path := config_path Sample.here;
     config_file := config_file Sample.here;
     template_path := template_path Sample.here;
     template_file := λ _, Parsed (JObject fields);
     today := today Sample.here;
     pages_create := pages_create Sample.here;
     databases_create := databases_create Sample.here |}.

End SampleSelf.

(* ===================================================================== *)
(** * Facts about Python strings *)
(* ===================================================================== *)

Module PyStrFacts.
Import PyStr.

Lemma app_cons (c : ascii) (s t : string) :
  String c s +:+ t = String c (s +:+ t).
Proof. reflexivity. Qed.

Lemma app_nil_l (s : string) : "" +:+ s = s.
Proof. reflexivity. Qed.

Lemma app_nil_r (s : string) : s +:+ "" = s.
Proof. induction s as [|c s IH]; [done|]. by rewrite app_cons, IH. Qed.

Lemma app_assoc (s t u : string) : (s +:+ t) +:+ u = s +:+ t +:+ u.
Proof. induction s as [|c s IH]; [done|]. by rewrite !app_cons, IH. Qed.

Lemma app_length (s t : string) :
  String.length (s +:+ t) = String.length s + String.length t.
Proof. induction s as [|c s IH]; [done|]. rewrite app_cons. simpl. by rewrite IH. Qed.


Lemma startswith_nil (s : string) : startswith s "" = true.
Proof. by destruct s. Qed.

Lemma startswith_cons (c d : ascii) (s p : string) :
  startswith (String c s) (String d p) = (if Ascii.eqb d c then startswith s p else false).
Proof. reflexivity. Qed.

Lemma startswith_app (p s : string) : startswith (p +:+ s) p = true.
Proof.
  induction p as [|c p IH]; [apply startswith_nil|].
  rewrite app_cons, startswith_cons, Ascii.eqb_refl. exact IH.
Qed.

Lemma startswith_spec (s p : string) :
  startswith s p = true ↔ ∃ t, s = p +:+ t.
Proof.
  split.
  - revert s. induction p as [|c p IH]; intros s H.
    + by exists s.
    + destruct s as [|d s]; [done|].
      rewrite startswith_cons in H.
      destruct (Ascii.eqb c d) eqn:E; [|done].
      apply Ascii.eqb_eq in E as ->.
      destruct (IH _ H) as [t ->]. by exists t.
  - intros [t ->]. apply startswith_app.
Qed.

Lemma drop_app (p s : string) : drop (String.length p) (p +:+ s) = s.
Proof. induction p as [|c p IH]; [done|]. exact IH. Qed.

Lemma drop_nil (n : nat) : drop n "" = "".
Proof. by destruct n. Qed.

Lemma replace_scan_skip (old new : string) (k : nat) (s : string) :
  replace_scan old new k s = replace_scan old new 0 (drop k s).
Proof.
  revert k. induction s as [|c s IH]; intros k.
  - by rewrite drop_nil.
  - destruct k as [|k]; [done|]. simpl. apply IH.
Qed.

(** A match at the head is replaced and the scan goes on behind it. *)
Lemma replace_scan_match (old new s : string) :
  old ≠ "" →
  replace_scan old new 0 (old +:+ s) = new +:+ replace_scan old new 0 s.
Proof.
  intros Hne. destruct old as [|a o]; [done|].
  rewrite app_cons. cbn [replace_scan].
  rewrite <-app_cons, startswith_app.
  rewrite replace_scan_skip. do 2 f_equal.
  replace (String.length (String a o) - 1) with (String.length o)
    by (cbn [String.length]; lia).
  apply drop_app.
Qed.

(** Where nothing matches, the character is kept. *)
Lemma replace_scan_miss (old new : string) (c : ascii) (s : string) :
  startswith (String c s) old = false →
  replace_scan old new 0 (String c s) = String c (replace_scan old new 0 s).
Proof. intros H. cbn [replace_scan]. by rewrite H. Qed.

Lemma replace_nonempty (s old new : string) :
  old ≠ "" → replace s old new = replace_scan old new 0 s.
Proof. by destruct old. Qed.

Lemma replace_dash (s : string) : replace s "-" "" = Spec.without_dashes s.
Proof.
  unfold replace. induction s as [|c s IH]; [done|].
  cbn [replace_scan Spec.without_dashes].
  rewrite startswith_cons, startswith_nil.
  replace (Ascii.eqb c "-") with (Ascii.eqb "-" c) by apply Ascii.eqb_sym.
  destruct (Ascii.eqb "-" c); cbn [String.length Nat.sub]; rewrite ?app_nil_l, IH; done.
Qed.

(** ** Occurrences *)

Lemma occurs_refl (s : string) : Spec.occurs s s.
Proof. exists "", "". by rewrite app_nil_r. Qed.

Lemma occurs_app_r (sub p s : string) :
  Spec.occurs sub s → Spec.occurs sub (p +:+ s).
Proof.
  intros (b & a & ->). exists (p +:+ b), a. by rewrite app_assoc.
Qed.

Lemma occurs_app_l (sub s q : string) :
  Spec.occurs sub s → Spec.occurs sub (s +:+ q).
Proof.
  intros (b & a & ->). exists b, (a +:+ q). by rewrite !app_assoc.
Qed.

(** Every part is to be found in the joined string. *)
Lemma join_occurs (sep k : string) (parts : list string) :
  k ∈ parts → Spec.occurs k (join sep parts).
Proof.
  induction parts as [|p rest IH]; [by inversion 1|].
  intros Hin. cbn [join]. destruct rest as [|q rest].
  - apply list_elem_of_singleton in Hin as ->. apply occurs_refl.
  - apply elem_of_cons in Hin as [->|Hin].
    + apply occurs_app_l, occurs_refl.
    + do 2 apply occurs_app_r. by apply IH.
Qed.

Lemma contains_unfold (s sub : string) :
  contains s sub =
    startswith s sub ||
    match s with "" => false | String _ s' => contains s' sub end.
Proof. by destruct s. Qed.

Lemma occurs_head (sub s : string) :
  startswith s sub = true → Spec.occurs sub s.
Proof. intros [t ->]%startswith_spec. by exists "", t. Qed.

Lemma occurs_cons (sub : string) (c : ascii) (s : string) :
  Spec.occurs sub s → Spec.occurs sub (String c s).
Proof. apply (occurs_app_r sub (String c "") s). Qed.

(** An occurrence that does not start at the head starts further on. *)
Lemma occurs_tail (sub s : string) :
  Spec.occurs sub s → startswith s sub = false →
  ∃ c s', s = String c s' ∧ Spec.occurs sub s'.
Proof.
  intros (b & a & ->) Hhead. destruct b as [|c b].
  - by rewrite app_nil_l, startswith_app in Hhead.
  - exists c, (b +:+ sub +:+ a). split; [done|]. by exists b, a.
Qed.

(** Python's [in] on strings decides occurrence. *)
Lemma contains_spec (s sub : string) :
  contains s sub = true ↔ Spec.occurs sub s.
Proof.
  split.
  - induction s as [|c s IH]; rewrite contains_unfold, orb_true_iff.
    + intros [H|H]; [by apply occurs_head|done].
    + intros [H|H]; [by apply occurs_head|by apply occurs_cons, IH].
  - intros (b & a & ->). induction b as [|c b IH].
    + rewrite app_nil_l, contains_unfold, startswith_app. done.
    + rewrite app_cons, contains_unfold, IH. apply orb_true_r.
Qed.

Lemma contains_false (s sub : string) :
  contains s sub = false ↔ ¬ Spec.occurs sub s.
Proof. rewrite <-contains_spec. by destruct (contains s sub). Qed.

(** ** One pass of [replace] *)

Lemma replace_scan_absent (old new s : string) :
  ¬ Spec.occurs old s → replace_scan old new 0 s = s.
Proof.
  induction s as [|c s IH]; intros Hno; [done|].
  rewrite replace_scan_miss.
  - f_equal. apply IH. intros H. by apply Hno, occurs_cons.
  - destruct (startswith _ _) eqn:E; [|done]. by apply occurs_head in E.
Qed.

Lemma replace_scan_before (old new before rest : string) :
  Spec.none_starts_in old before rest →
  replace_scan old new 0 (before +:+ rest) = before +:+ replace_scan old new 0 rest.
Proof.
  induction before as [|c b IH]; [done|].
  intros [Hmiss Hb]. rewrite app_cons in Hmiss.
  rewrite !app_cons, replace_scan_miss by done. f_equal. by apply IH.
Qed.

(** The leftmost occurrence. *)
Lemma first_occurrence (old s : string) :
  Spec.occurs old s →
  ∃ before rest, s = before +:+ old +:+ rest ∧
                 Spec.none_starts_in old before (old +:+ rest).
Proof.
  induction s as [|c s IH]; intros Hocc.
  - destruct (startswith "" old) eqn:E.
    + apply startswith_spec in E as [t E]. by exists "", t.
    + by destruct (occurs_tail _ _ Hocc E) as (? & ? & ? & _).
  - destruct (startswith (String c s) old) eqn:E.
    + apply startswith_spec in E as [t E]. by exists "", t.
    + destruct (occurs_tail _ _ Hocc E) as (c' & s' & [= <- <-] & Hocc').
      destruct (IH Hocc') as (b & rest & -> & Hb).
      exists (String c b), rest. split; [done|]. split; [|done].
      by rewrite app_cons.
Qed.

Lemma replace_scan_first (old new before rest : string) :
  old ≠ "" →
  Spec.none_starts_in old before (old +:+ rest) →
  replace_scan old new 0 (before +:+ old +:+ rest)
    = before +:+ new +:+ replace_scan old new 0 rest.
Proof.
  intros Hne Hb. by rewrite replace_scan_before, replace_scan_match.
Qed.

Lemma replace_scan_all_upto (old new : string) (n : nat) (s : string) :
  old ≠ "" → String.length s ≤ n →
  Spec.replaced_all old new s (replace_scan old new 0 s).
Proof.
  intros Hne. revert s. induction n as [|n IH]; intros s Hlen.
  - destruct s; [|cbn in Hlen; lia].
    apply Spec.replaced_none. intros (b & a & E).
    destruct b; [|done]. destruct old; done.
  - destruct (contains s old) eqn:E.
    + apply contains_spec, first_occurrence in E as (b & rest & -> & Hb).
      rewrite replace_scan_first by done.
      apply Spec.replaced_next; [done|]. apply IH.
      rewrite !app_length in Hlen.
      destruct old; [done|]. cbn in Hlen. lia.
    + apply contains_false in E. rewrite replace_scan_absent by done.
      by apply Spec.replaced_none.
Qed.

(** [replace] performs the pass of the specification, *)
Lemma replace_replaced_all (s old new : string) :
  old ≠ "" → Spec.replaced_all old new s (replace s old new).
Proof.
  intros Hne. rewrite replace_nonempty by done.
  by apply (replace_scan_all_upto old new (String.length s)).
Qed.

(** and the pass has no other result. *)
Lemma replaced_all_unique (s t old new : string) :
  old ≠ "" → Spec.replaced_all old new s t → t = replace s old new.
Proof.
  intros Hne H. rewrite replace_nonempty by done.
  induction H as [s Hno|b s t Hb _ IH].
  - by rewrite replace_scan_absent.
  - by rewrite replace_scan_first, IH.
Qed.

(** ** Replacing on both sides of a boundary *)

Lemma splits_clean_tail (old a1 a2 b : string) :
  splits_clean old (a1 +:+ a2) b → splits_clean old a2 b.
Proof.
  intros H x y -> Hy. apply (H (a1 +:+ x) y); [|done]. by rewrite app_assoc.
Qed.

Lemma replace_scan_app_upto (old new : string) (n : nat) (a b : string) :
  old ≠ "" → String.length a ≤ n → splits_clean old a b →
  replace_scan old new 0 (a +:+ b)
    = replace_scan old new 0 a +:+ replace_scan old new 0 b.
Proof.
  intros Hne. revert a. induction n as [|n IH]; intros a Hlen Hclean.
  { destruct a; [done|cbn in Hlen; lia]. }
  destruct a as [|c a]; [done|].
  destruct (startswith (String c a) old) eqn:E.
  - apply startswith_spec in E as [t E]. rewrite E in *.
    rewrite app_assoc, !replace_scan_match, app_assoc by done. f_equal.
    apply IH; [|by eapply splits_clean_tail].
    rewrite app_length in Hlen. destruct old; [done|]. cbn in Hlen. lia.
  - assert (startswith (String c a +:+ b) old = false) as E'.
    { destruct (startswith (String c a +:+ b) old) eqn:E'; [|done].
      apply (Hclean "" (String c a)) in E'; [congruence|done..]. }
    rewrite replace_scan_miss by done.
    rewrite app_cons in E' |- *. rewrite replace_scan_miss by done.
    rewrite app_cons. f_equal. apply IH; [cbn in Hlen; lia|].
    by apply (splits_clean_tail old (String c "") a b).
Qed.

Lemma replace_scan_app (old new a b : string) :
  old ≠ "" → splits_clean old a b →
  replace_scan old new 0 (a +:+ b)
    = replace_scan old new 0 a +:+ replace_scan old new 0 b.
Proof. intros ??. by apply (replace_scan_app_upto old new (String.length a)). Qed.

(** A pattern found at the head of [a +:+ b] lies within [a] or runs over
    its end. *)
Lemma startswith_app_cases (a b x : string) :
  startswith (a +:+ b) x = true →
  startswith a x = true ∨
  ∃ u, u ≠ "" ∧ x = a +:+ u ∧ startswith b u = true.
Proof.
  revert x. induction a as [|c a IH]; intros x H.
  - destruct x as [|d x]; [by left|]. right. by exists (String d x).
  - destruct x as [|d x]; [by left|].
    rewrite app_cons, startswith_cons in H. rewrite startswith_cons.
    destruct (Ascii.eqb d c) eqn:E; [|done].
    apply Ascii.eqb_eq in E as ->.
    destruct (IH _ H) as [?|(u & ? & -> & ?)]; [by left|].
    right. by exists u.
Qed.

End PyStrFacts.

(* ===================================================================== *)
(** * The target resolver *)
(* ===================================================================== *)

Module ResolverFacts.
Import PyStr PyStrFacts.

Lemma hex_digit_test (c : ascii) :
  contains "0123456789abcdef" (String c "") = true ↔ Spec.lowercase_hex c.
Proof.
  unfold Spec.lowercase_hex.
  destruct c as [[] [] [] [] [] [] [] []];
    (split; [intros H; try discriminate H; cbn; lia
            |intros H; cbn in H; try lia; reflexivity]).
Qed.

Lemma all_spec (f : ascii → bool) (s : string) :
  all f s = true ↔ Forall (λ c, f c = true) (Spec.chars s).
Proof.
  induction s as [|c s IH]; cbn [all Spec.chars].
  - split; [constructor|done].
  - rewrite andb_true_iff, IH. split.
    + intros [??]. by constructor.
    + by inversion 1.
Qed.

(** The test of the scripts decides the shape of the specification. *)
Lemma is_raw_id_spec (name : string) :
  is_raw_id (replace name "-" "") = true ↔ Spec.hex32_shape name.
Proof.
  unfold is_raw_id, Spec.hex32_shape. rewrite replace_dash.
  rewrite andb_true_iff, Nat.eqb_eq, all_spec.
  apply and_iff_compat_l. split; intros H.
  - eapply Forall_impl; [exact H|]. intros c. apply hex_digit_test.
  - eapply Forall_impl; [exact H|]. intros c. apply hex_digit_test.
Qed.

Lemma is_raw_id_false (name : string) :
  ¬ Spec.hex32_shape name → is_raw_id (replace name "-" "") = false.
Proof.
  intros H. destruct (is_raw_id _) eqn:E; [|done].
  by apply is_raw_id_spec in E.
Qed.

(** The two scripts carry the same resolver. *)
Lemma resolve_target_same (w : world) (name : string) :
  CreateProject.resolve_target w name = NotionClient.resolve_target w name.
Proof.
  unfold CreateProject.resolve_target, NotionClient.resolve_target,
    NotionClient.load_config.
  destruct (is_raw_id _); [done|].
  destruct (config_file w) as [| |config]; [done..|].
  unfold path_exists, json_load, emit; cbn.
  match goal with
  | |- context [py_get ?c ?k ?d ≫= ?f] => by destruct (py_get c k d ≫= f)
  end.
Qed.

Lemma resolve_raw (w : world) (name : string) :
  Spec.hex32_shape name →
  NotionClient.resolve_target w name = ([], Return (JString name)).
Proof.
  intros H. apply is_raw_id_spec in H.
  unfold NotionClient.resolve_target. by rewrite H.
Qed.

Lemma resolve_absent (w : world) (name : string) :
  ¬ Spec.hex32_shape name →
  config_file w = Absent →
  NotionClient.resolve_target w name = Spec.ConfigNotFoundError w.
Proof.
  intros H Hf. apply is_raw_id_false in H.
  unfold NotionClient.resolve_target, NotionClient.load_config.
  rewrite H, Hf. reflexivity.
Qed.

Lemma mem_get {V} (k : string) (d : dict V) :
  PyDict.mem k d = bool_decide (is_Some (PyDict.get k d)).
Proof.
  unfold PyDict.mem. destruct (PyDict.get k d); [|done].
  symmetry. by apply bool_decide_eq_true.
Qed.

Lemma resolve_known (w : world) (name : string)
    (config targets entry : dict json) (id : json) :
  ¬ Spec.hex32_shape name →
  config_file w = Parsed (JObject config) →
  Spec.targets_of config = JObject targets →
  PyDict.get name targets = Some (JObject entry) →
  PyDict.get "id" entry = Some id →
  NotionClient.resolve_target w name =
    ([EvExists (config_path w) true; EvLoad (config_path w)], Return id).
Proof.
  intros H Hf Ht Hn Hid. apply is_raw_id_false in H.
  unfold NotionClient.resolve_target, NotionClient.load_config.
  rewrite H, Hf. unfold Spec.targets_of in Ht.
  cbn -[PyDict.get]. rewrite Ht. cbn -[PyDict.get].
  unfold PyDict.mem. rewrite Hn. cbn -[PyDict.get].
  rewrite Hid. reflexivity.
Qed.

Lemma resolve_unknown (w : world) (name : string) (config targets : dict json) :
  ¬ Spec.hex32_shape name →
  config_file w = Parsed (JObject config) →
  Spec.targets_of config = JObject targets →
  PyDict.get name targets = None →
  NotionClient.resolve_target w name =
    Spec.UnknownTargetError w name (PyDict.keys targets).
Proof.
  intros H Hf Ht Hn. apply is_raw_id_false in H.
  unfold NotionClient.resolve_target, NotionClient.load_config.
  rewrite H, Hf. unfold Spec.targets_of in Ht.
  cbn -[PyDict.get]. rewrite Ht. cbn -[PyDict.get].
  unfold PyDict.mem. rewrite Hn. reflexivity.
Qed.

(** Resolving a name hands nothing to the service. *)
Lemma resolve_target_forwards_nothing (w : world) (name : string) :
  Spec.pages_forwarded (NotionClient.resolve_target w name).1 = [].
Proof.
  unfold NotionClient.resolve_target, NotionClient.load_config.
  destruct (is_raw_id _); [done|].
  destruct (config_file w) as [| |config]; [done..|].
  destruct config as [| | | | |fields]; try done.
  cbn -[PyDict.get PyDict.mem contains].
  destruct (default _ _) as [| | |s|items|targets]; cbn -[PyDict.get PyDict.mem contains];
    try done.
  - by destruct (contains s name).
  - by destruct (existsb _ items).
  - unfold PyDict.mem. destruct (PyDict.get name targets) as [entry|] eqn:E;
      cbn -[PyDict.get]; [|done].
    destruct entry as [| | | | |entry]; try done.
    cbn -[PyDict.get]. by destruct (PyDict.get "id" entry).
Qed.

Lemma pages_forwarded_app (t1 t2 : list event) :
  Spec.pages_forwarded (t1 ++ t2) = Spec.pages_forwarded t1 ++ Spec.pages_forwarded t2.
Proof. apply omap_app. Qed.

End ResolverFacts.

(* ===================================================================== *)
(** * Facts about dictionaries *)
(* ===================================================================== *)

Module DictFacts.

Section facts.
Context {V : Type}.
Implicit Types (d : dict V) (k : string) (v : V).

Lemma get_None_keys k d : PyDict.get k d = None ↔ k ∉ PyDict.keys d.
Proof.
  induction d as [|[k' v'] d IH]; cbn.
  - split; [intros _; apply not_elem_of_nil|done].
  - rewrite not_elem_of_cons, <-IH.
    destruct (String.eqb k k') eqn:E.
    + apply String.eqb_eq in E. split; [done|]. by intros [? _].
    + apply String.eqb_neq in E. tauto.
Qed.

Lemma get_set_eq k v d : PyDict.get k (PyDict.set k v d) = Some v.
Proof.
  induction d as [|[k' v'] d IH]; cbn.
  - by rewrite String.eqb_refl.
  - destruct (String.eqb k k') eqn:E; cbn; by rewrite E.
Qed.

Lemma get_set_ne k k' v d :
  k ≠ k' → PyDict.get k' (PyDict.set k v d) = PyDict.get k' d.
Proof.
  intros Hne. induction d as [|[k'' v''] d IH]; cbn.
  - apply String.eqb_neq in Hne. by rewrite String.eqb_sym, Hne.
  - destruct (String.eqb k k'') eqn:E; cbn.
    + apply String.eqb_eq in E as <-.
      apply String.eqb_neq in Hne. by rewrite String.eqb_sym, Hne.
    + by rewrite IH.
Qed.

Lemma get_pop_ne k k' d :
  k ≠ k' → PyDict.get k' (PyDict.pop k d) = PyDict.get k' d.
Proof.
  intros Hne. induction d as [|[k'' v''] d IH]; cbn; [done|].
  destruct (String.eqb k k'') eqn:E; cbn.
  - apply String.eqb_eq in E as <-.
    apply String.eqb_neq in Hne. by rewrite String.eqb_sym, Hne.
  - by rewrite IH.
Qed.

(** The keys of a dictionary are distinct, so a popped key is gone. *)
Lemma get_pop_eq k d :
  PyDict.wf d → PyDict.get k (PyDict.pop k d) = None.
Proof.
  unfold PyDict.wf. induction d as [|[k' v'] d IH]; cbn; [done|].
  intros [Hk' Hd]%NoDup_cons.
  destruct (String.eqb k k') eqn:E; cbn.
  - apply String.eqb_eq in E as ->. by apply get_None_keys.
  - rewrite E. by apply IH.
Qed.

Lemma keys_set k v d :
  PyDict.keys (PyDict.set k v d) =
    if PyDict.mem k d then PyDict.keys d else PyDict.keys d ++ [k].
Proof.
  unfold PyDict.mem. induction d as [|[k' v'] d IH]; cbn; [done|].
  destruct (String.eqb k k') eqn:E; cbn; [done|].
  unfold PyDict.keys in IH. rewrite IH. by destruct (PyDict.get k d).
Qed.

Lemma wf_set k v d : PyDict.wf d → PyDict.wf (PyDict.set k v d).
Proof.
  unfold PyDict.wf. rewrite keys_set. unfold PyDict.mem.
  destruct (PyDict.get k d) eqn:E; [done|].
  intros Hd. apply NoDup_app. split; [done|]. split; [|apply NoDup_singleton].
  intros x Hx ->%list_elem_of_singleton. by apply get_None_keys in E.
Qed.

Lemma keys_pop k d :
  PyDict.keys (PyDict.pop k d) `sublist_of` PyDict.keys d.
Proof.
  induction d as [|[k' v'] d IH]; cbn; [done|].
  destruct (String.eqb k k'); cbn.
  - by apply sublist_cons.
  - by apply sublist_skip.
Qed.

Lemma wf_pop k d : PyDict.wf d → PyDict.wf (PyDict.pop k d).
Proof. unfold PyDict.wf. intros H. eapply sublist_NoDup; [done|apply keys_pop]. Qed.

End facts.

Lemma keys_map {V W} (f : V → W) (d : dict V) :
  PyDict.keys (map (λ kv, (kv.1, f kv.2)) d) = PyDict.keys d.
Proof. induction d as [|[k v] d IH]; cbn; [done|]. f_equal. exact IH. Qed.

Lemma get_map {V W} (f : V → W) (k : string) (d : dict V) :
  PyDict.get k (map (λ kv, (kv.1, f kv.2)) d) = f <$> PyDict.get k d.
Proof.
  induction d as [|[k' v] d IH]; cbn; [done|].
  by destruct (String.eqb k k').
Qed.

End DictFacts.

(* ===================================================================== *)
(** * The template engine *)
(* ===================================================================== *)

Module TemplateFacts.
Import PyStr PyStrFacts.

Lemma chars_app (s t : string) :
  Spec.chars (s +:+ t) = Spec.chars s ++ Spec.chars t.
Proof. induction s as [|c s IH]; [done|]. rewrite app_cons. cbn. by rewrite IH. Qed.

Lemma token_unfold (key : string) :
  Spec.token key = String "{" (String "{" (key +:+ "}}")).
Proof. reflexivity. Qed.

Lemma placeholder_token (key : string) :
  CreateProject.placeholder key = Spec.token key.
Proof. reflexivity. Qed.

Lemma token_nonempty (key : string) : Spec.token key ≠ "".
Proof. by rewrite token_unfold. Qed.

Lemma brace_free_body (key : string) :
  Spec.brace_free key → Spec.no_open (key +:+ "}}").
Proof.
  intros H. unfold Spec.no_open. rewrite chars_app. apply Forall_app. split.
  - eapply Forall_impl; [exact H|]. by intros c [? _].
  - by repeat constructor.
Qed.

Lemma body_nonempty (key : string) : key +:+ "}}" ≠ "".
Proof. by destruct key. Qed.

(** A string without an opening brace cannot start a text that begins
    with one, nor the other way round. *)
Lemma no_open_miss (u s : string) :
  Spec.no_open u → u ≠ "" → startswith (String "{" s) u = false.
Proof.
  intros Hu Hne. destruct u as [|c u]; [done|].
  apply Forall_cons in Hu as [Hc _]. rewrite startswith_cons.
  destruct (Ascii.eqb c "{") eqn:E; [|done]. by apply Ascii.eqb_eq in E.
Qed.

Lemma open_miss (x rest y : string) :
  Spec.no_open x → x ≠ "" → startswith (x +:+ rest) (String "{" y) = false.
Proof.
  intros Hx Hne. destruct x as [|c x]; [done|].
  apply Forall_cons in Hx as [Hc _]. rewrite app_cons, startswith_cons.
  destruct (Ascii.eqb "{" c) eqn:E; [|done]. by apply Ascii.eqb_eq in E.
Qed.

Lemma replace_scan_no_open (old new x rest : string) :
  Spec.no_open x →
  replace_scan (String "{" old) new 0 (x +:+ rest)
    = x +:+ replace_scan (String "{" old) new 0 rest.
Proof.
  induction x as [|c x IH]; intros Hx; [done|].
  rewrite !app_cons, replace_scan_miss.
  - f_equal. apply IH. by apply Forall_cons in Hx as [_ ?].
  - rewrite <-app_cons. apply open_miss; done.
Qed.

(** The token of a brace-free key never runs from the text before another
    token into that token. *)
Lemma token_splits_clean (key B p q : string) :
  Spec.brace_free key →
  splits_clean (Spec.token key) p (Spec.token B +:+ q).
Proof.
  intros Hk a1 a2 -> Hne Hs.
  apply startswith_app_cases in Hs as [H|(u & Hu & E & Hsu)]; [done|].
  exfalso. apply brace_free_body in Hk.
  rewrite (token_unfold B), !app_cons in Hsu.
  destruct a2 as [|c a2]; [done|].
  rewrite token_unfold, app_cons in E. injection E as <- E.
  destruct a2 as [|c' a2].
  - rewrite app_nil_l in E. subst u.
    rewrite startswith_cons, Ascii.eqb_refl in Hsu.
    by rewrite no_open_miss in Hsu by auto using body_nonempty.
  - rewrite app_cons in E. injection E as <- E.
    rewrite E in Hk. unfold Spec.no_open in Hk. rewrite chars_app in Hk.
    apply Forall_app in Hk as [_ Hu'].
    by rewrite no_open_miss in Hsu.
Qed.

(** Two brace-free keys whose tokens start alike are the same key. *)
Lemma token_body_inj (key B q : string) :
  Spec.brace_free key → Spec.brace_free B →
  startswith (B +:+ "}}" +:+ q) (key +:+ "}}") = true → key = B.
Proof.
  revert B. induction key as [|c key IH]; intros B Hk HB H.
  - destruct B as [|d B]; [done|].
    apply Forall_cons in HB as [[_ Hd] _].
    rewrite app_nil_l, app_cons, startswith_cons in H.
    destruct (Ascii.eqb "}" d) eqn:E; [|done]. by apply Ascii.eqb_eq in E.
  - apply Forall_cons in Hk as [[_ Hc] Hk].
    destruct B as [|d B].
    + rewrite app_nil_l, !app_cons, startswith_cons in H.
      destruct (Ascii.eqb c "}") eqn:E; [|done]. by apply Ascii.eqb_eq in E.
    + apply Forall_cons in HB as [_ HB].
      rewrite !app_cons, startswith_cons in H.
      destruct (Ascii.eqb c d) eqn:E; [|done].
      apply Ascii.eqb_eq in E as ->. f_equal. by apply IH.
Qed.

(** A pass for one brace-free key steps over the token of another. *)
Lemma replace_scan_other_token (key value B q : string) :
  Spec.brace_free key → Spec.brace_free B → key ≠ B →
  replace_scan (Spec.token key) value 0 (Spec.token B +:+ q)
    = Spec.token B +:+ replace_scan (Spec.token key) value 0 q.
Proof.
  intros Hk HB Hne.
  rewrite (token_unfold B), !app_cons, app_assoc, (token_unfold key).
  rewrite replace_scan_miss; [f_equal|].
  - rewrite replace_scan_miss; [f_equal|].
    + rewrite <-app_assoc. apply replace_scan_no_open.
      by apply brace_free_body.
    + rewrite startswith_cons, Ascii.eqb_refl.
      rewrite <-app_assoc.
      apply open_miss; auto using brace_free_body, body_nonempty.
  - rewrite !startswith_cons, !Ascii.eqb_refl.
    destruct (startswith _ _) eqn:E; [|done].
    by apply token_body_inj in E.
Qed.

Lemma replace_around_token (key value B p q : string) :
  Spec.brace_free key → Spec.brace_free B → key ≠ B →
  replace (p +:+ Spec.token B +:+ q) (Spec.token key) value
    = replace p (Spec.token key) value +:+ Spec.token B
        +:+ replace q (Spec.token key) value.
Proof.
  intros Hk HB Hne. rewrite !replace_nonempty by apply token_nonempty.
  rewrite replace_scan_app by auto using token_nonempty, token_splits_clean.
  by rewrite replace_scan_other_token.
Qed.

(** ** The loop over the replacement set *)

Lemma replace_in_string_cons (s key value : string) (rest : dict string) :
  CreateProject.replace_in_string s ((key, value) :: rest)
    = CreateProject.replace_in_string (replace s (Spec.token key) value) rest.
Proof. reflexivity. Qed.

Lemma replace_in_string_app (s : string) (r1 r2 : dict string) :
  CreateProject.replace_in_string s (r1 ++ r2)
    = CreateProject.replace_in_string (CreateProject.replace_in_string s r1) r2.
Proof. apply foldl_app. Qed.

Lemma replace_in_string_applied (r : dict string) (s : string) :
  Spec.applied_in_order r s (CreateProject.replace_in_string s r).
Proof.
  revert s. induction r as [|[key value] r IH]; intros s.
  - apply Spec.applied_nil.
  - rewrite replace_in_string_cons.
    eapply Spec.applied_cons; [|apply IH].
    apply replace_replaced_all, token_nonempty.
Qed.

Lemma applied_in_order_unique (r : dict string) (s t : string) :
  Spec.applied_in_order r s t → t = CreateProject.replace_in_string s r.
Proof.
  induction 1 as [s|key value r s s1 t H1 _ IH]; [done|].
  rewrite replace_in_string_cons.
  by rewrite <-(replaced_all_unique _ _ _ _ (token_nonempty key) H1).
Qed.

Lemma get_cons_None {V} (k k' : string) (v : V) (d : dict V) :
  PyDict.get k ((k', v) :: d) = None → k' ≠ k ∧ PyDict.get k d = None.
Proof.
  cbn. destruct (String.eqb k k') eqn:E; [done|].
  apply String.eqb_neq in E. by intros ->.
Qed.

(** With brace-free keys, a token whose key is not in the replacement set
    stays where it is, and the text on either side is substituted on its
    own. *)
Lemma replace_in_string_around_token (r : dict string) (B p q : string) :
  Forall Spec.brace_free (PyDict.keys r) →
  Spec.brace_free B →
  PyDict.get B r = None →
  CreateProject.replace_in_string (p +:+ Spec.token B +:+ q) r
    = CreateProject.replace_in_string p r +:+ Spec.token B
        +:+ CreateProject.replace_in_string q r.
Proof.
  intros Hr HB. revert p q.
  induction r as [|[key value] r IH]; intros p q Hget; [done|].
  apply Forall_cons in Hr as [Hk Hr].
  apply get_cons_None in Hget as [Hne Hget].
  rewrite !replace_in_string_cons, replace_around_token by done.
  by apply IH.
Qed.

(** A string in which no token of the replacement set occurs is returned
    as it is. *)
Lemma replace_in_string_no_token (r : dict string) (s : string) :
  Forall (λ key, ¬ Spec.occurs (Spec.token key) s) (PyDict.keys r) →
  CreateProject.replace_in_string s r = s.
Proof.
  induction r as [|[key value] r IH]; intros Hr; [done|].
  apply Forall_cons in Hr as [Hk Hr].
  rewrite replace_in_string_cons, replace_nonempty by apply token_nonempty.
  rewrite replace_scan_absent by done. by apply IH.
Qed.

(** ** The walk over the document *)

Lemma replace_placeholders_leafwise (R : string → string → Prop)
    (r : dict string) (doc : json) :
  (∀ s, R s (CreateProject.replace_in_string s r)) →
  Spec.leafwise R doc (CreateProject.replace_placeholders doc r).
Proof.
  intros HR. induction doc as [| | | |items IH|fields IH] using json_induction;
    cbn [CreateProject.replace_placeholders]; try by constructor.
  - constructor. induction IH; constructor; auto.
  - constructor. induction IH; constructor; auto.
Qed.

Lemma replace_placeholders_nil (doc : json) :
  CreateProject.replace_placeholders doc [] = doc.
Proof.
  induction doc as [| | | |items IH|fields IH] using json_induction;
    cbn [CreateProject.replace_placeholders]; try done.
  - f_equal. induction IH as [|x l Hx _ IHl]; [done|].
    cbn [map]. by rewrite Hx, IHl.
  - f_equal. induction IH as [|[k x] l Hx _ IHl]; [done|].
    cbn [map fst snd] in *. by rewrite Hx, IHl.
Qed.

Lemma replace_placeholders_no_match (doc : json) (r : dict string) :
  Spec.no_key_matches doc r → CreateProject.replace_placeholders doc r = doc.
Proof.
  unfold Spec.no_key_matches.
  induction doc as [| | | |items IH|fields IH] using json_induction;
    cbn [CreateProject.replace_placeholders Spec.string_leaves]; try done.
  - intros H. f_equal. apply replace_in_string_no_token.
    apply Forall_forall. intros key Hkey. apply H; [|done].
    by apply list_elem_of_singleton.
  - intros H. f_equal. induction IH as [|x l Hx _ IHl]; [done|].
    cbn [map flat_map] in *. rewrite Hx, IHl; [done|..].
    + intros s key Hs. apply H. apply elem_of_app. by right.
    + intros s key Hs. apply H. apply elem_of_app. by left.
  - intros H. f_equal. induction IH as [|[k x] l Hx _ IHl]; [done|].
    cbn [map flat_map fst snd] in *. rewrite Hx, IHl; [done|..].
    + intros s key Hs. apply H. apply elem_of_app. by right.
    + intros s key Hs. apply H. apply elem_of_app. by left.
Qed.

Lemma replace_token_itself (key value : string) :
  replace (Spec.token key) (Spec.token key) value = value.
Proof.
  rewrite replace_nonempty by apply token_nonempty.
  rewrite <-(app_nil_r (Spec.token key)) at 2.
  rewrite replace_scan_match by apply token_nonempty.
  apply app_nil_r.
Qed.

Lemma replace_placeholders_app (doc : json) (r1 r2 : dict string) :
  CreateProject.replace_placeholders doc (r1 ++ r2)
    = CreateProject.replace_placeholders
        (CreateProject.replace_placeholders doc r1) r2.
Proof.
  induction doc as [| | | |items IH|fields IH] using json_induction;
    cbn [CreateProject.replace_placeholders]; try done.
  - by rewrite TemplateFacts.replace_in_string_app.
  - f_equal. rewrite map_map. induction IH as [|x l Hx _ IHl]; [done|].
    cbn [map]. by rewrite Hx, IHl.
  - f_equal. rewrite map_map. induction IH as [|[k x] l Hx _ IHl]; [done|].
    cbn [map fst snd] in *. by rewrite Hx, IHl.
Qed.

(** Every token begins with two opening braces. *)
Lemma token_occurs_braces (key s : string) :
  Spec.occurs (Spec.token key) s → Spec.occurs "{{" s.
Proof.
  intros (b & a & ->). exists b, (key +:+ "}}" +:+ a).
  rewrite token_unfold. by rewrite !app_cons, app_assoc.
Qed.

End TemplateFacts.

(* ===================================================================== *)
(** * Documents in the store *)
(* ===================================================================== *)

Module HeapFacts.
Import PyHeap.

(** ** Allocation *)

Lemma alloc_fresh (o : pyobj) (h : heap) : h !! (alloc o h).1 = None.
Proof. apply not_elem_of_dom, is_fresh. Qed.

Lemma alloc_lookup (o : pyobj) (h : heap) :
  (alloc o h).2 !! (alloc o h).1 = Some o.
Proof. apply lookup_insert_eq. Qed.

Lemma alloc_subseteq (o : pyobj) (h : heap) : h ⊆ (alloc o h).2.
Proof. apply insert_subseteq, (alloc_fresh o h). Qed.

(** ** Nothing that was in the store changes *)

Section frame.
Context (f : pyval → heap → option pyval * heap).
Context (Hf : ∀ x h, h ⊆ (f x h).2).

Lemma map_items_frame (items : list pyval) (h : heap) :
  h ⊆ (map_items f items h).2.
Proof.
  revert h. induction items as [|x rest IH]; intros h; cbn [map_items]; [done|].
  pose proof (Hf x h) as H1. destruct (f x h) as [[x'|] h1]; [|done].
  pose proof (IH h1) as H2. destruct (map_items f rest h1) as [[rest'|] h2];
    by etrans.
Qed.

Lemma map_fields_frame (fields : dict pyval) (h : heap) :
  h ⊆ (map_fields f fields h).2.
Proof.
  revert h. induction fields as [|[k x] rest IH]; intros h; cbn [map_fields]; [done|].
  pose proof (Hf x h) as H1. destruct (f x h) as [[x'|] h1]; [|done].
  pose proof (IH h1) as H2. destruct (map_fields f rest h1) as [[rest'|] h2];
    by etrans.
Qed.
End frame.

Lemma replace_placeholders_frame (limit : nat) (obj : pyval)
    (r : dict string) (h : heap) :
  h ⊆ (replace_placeholders limit obj r h).2.
Proof.
  revert obj h. induction limit as [|n IH]; intros obj h; [done|].
  cbn [replace_placeholders]. destruct obj as [| | | |l]; try done.
  destruct (h !! l) as [[items|fields]|]; [| |done].
  - pose proof (map_items_frame _ (λ x h, IH x h) items h) as H1.
    destruct (map_items _ items h) as [[items'|] h1]; [|done].
    etrans; [exact H1|]. apply alloc_subseteq.
  - pose proof (map_fields_frame _ (λ x h, IH x h) fields h) as H1.
    destruct (map_fields _ fields h) as [[fields'|] h1]; [|done].
    etrans; [exact H1|]. apply alloc_subseteq.
Qed.

(** ** Reading a document back *)

Lemma reify_weaken (limit : nat) (h h' : heap) (v : pyval) (j : json) :
  h ⊆ h' → reify limit h v = Some j → reify limit h' v = Some j.
Proof.
  intros Hsub. revert v j. induction limit as [|n IH]; intros v j; [done|].
  cbn [reify]. destruct v as [| | | |l]; try done.
  destruct (h !! l) as [o|] eqn:E; [|done].
  rewrite (lookup_weaken _ _ _ _ E Hsub).
  destruct o as [items|fields].
  - destruct (mapM (reify n h) items) as [js|] eqn:Ejs; [|done].
    intros [= <-]. apply mapM_Some in Ejs.
    assert (mapM (reify n h') items = Some js) as ->; [|done].
    apply mapM_Some. eapply Forall2_impl; [exact Ejs|]. auto.
  - destruct (mapM _ fields) as [js|] eqn:Ejs; [|done].
    intros [= <-]. apply mapM_Some in Ejs.
    assert (mapM (λ kv, pair kv.1 <$> reify n h' kv.2) fields = Some js) as ->;
      [|done].
    apply mapM_Some. eapply Forall2_impl; [exact Ejs|].
    intros [k x] km. cbn.
    destruct (reify n h x) as [y|] eqn:Ex; [|done].
    by rewrite (IH _ _ Ex).
Qed.

(** ** The walk in the store follows the walk on documents *)

Section refines.
Context (n : nat) (r : dict string).
Context (IH : ∀ v j h,
  reify n h v = Some j →
  ∃ v', (replace_placeholders n v r h).1 = Some v' ∧
        reify n (replace_placeholders n v r h).2 v'
          = Some (CreateProject.replace_placeholders j r)).

Let walk := λ (item : pyval), replace_placeholders n item r.

Lemma map_items_refines (items : list pyval) (js : list json) (h0 h : heap) :
  h0 ⊆ h →
  Forall2 (λ x y, reify n h0 x = Some y) items js →
  ∃ items',
    (map_items walk items h).1 = Some items' ∧
    Forall2 (λ x y, reify n (map_items walk items h).2 x = Some y) items'
      (map (λ j, CreateProject.replace_placeholders j r) js).
Proof.
  intros Hsub Hall. revert h Hsub.
  induction Hall as [|x y items js Hx _ IHl]; intros h Hsub.
  { exists []. split; [done|constructor]. }
  cbn [map_items map].
  destruct (IH x y h) as (x' & E1 & Hx'); [by eapply reify_weaken|].
  pose proof (replace_placeholders_frame n x r h) as Hh1.
  fold (walk x h) in *. destruct (walk x h) as [o h1]. cbn [fst snd] in *. subst o.
  destruct (IHl h1) as (items' & E2 & Hitems'); [by etrans|].
  pose proof (map_items_frame walk (λ x h, replace_placeholders_frame n x r h)
                items h1) as Hh2.
  destruct (map_items walk items h1) as [o h2]. cbn [fst snd] in *. subst o.
  exists (x' :: items'). split; [done|].
  constructor; [by eapply reify_weaken|done].
Qed.

Lemma map_fields_refines (fields : dict pyval) (js : dict json) (h0 h : heap) :
  h0 ⊆ h →
  Forall2 (λ kv km, pair kv.1 <$> reify n h0 kv.2 = Some km) fields js →
  ∃ fields',
    (map_fields walk fields h).1 = Some fields' ∧
    Forall2 (λ kv km, pair kv.1 <$> reify n (map_fields walk fields h).2 kv.2 = Some km)
      fields'
      (map (λ kv, (kv.1, CreateProject.replace_placeholders kv.2 r)) js).
Proof.
  intros Hsub Hall. revert h Hsub.
  induction Hall as [|[k x] [k' y] fields js Hx _ IHl]; intros h Hsub.
  { exists []. split; [done|constructor]. }
  cbn [map_fields map fst snd] in *.
  destruct (reify n h0 x) as [y0|] eqn:Ex; [|done].
  cbn in Hx. injection Hx as <- <-.
  destruct (IH x y0 h) as (x' & E1 & Hx'); [by eapply reify_weaken|].
  pose proof (replace_placeholders_frame n x r h) as Hh1.
  fold (walk x h) in *. destruct (walk x h) as [o h1]. cbn [fst snd] in *. subst o.
  destruct (IHl h1) as (fields' & E2 & Hfields'); [by etrans|].
  pose proof (map_fields_frame walk (λ x h, replace_placeholders_frame n x r h)
                fields h1) as Hh2.
  destruct (map_fields walk fields h1) as [o h2]. cbn [fst snd] in *. subst o.
  exists ((k, x') :: fields'). split; [done|].
  constructor; [|done]. cbn [fst snd].
  by rewrite (reify_weaken _ _ _ _ _ Hh2 Hx').
Qed.
End refines.

Lemma replace_placeholders_refines (limit : nat) (r : dict string)
    (v : pyval) (j : json) (h : heap) :
  reify limit h v = Some j →
  ∃ v', (replace_placeholders limit v r h).1 = Some v' ∧
        reify limit (replace_placeholders limit v r h).2 v'
          = Some (CreateProject.replace_placeholders j r).
Proof.
  revert v j h. induction limit as [|n IH]; intros v j h; [done|].
  cbn [reify replace_placeholders].
  destruct v as [| | | |l]; try (intros [= <-]; eexists; split; done).
  destruct (h !! l) as [[items|fields]|] eqn:El; [| |done].
  - destruct (mapM (reify n h) items) as [js|] eqn:Ejs; [|done].
    intros [= <-]. apply mapM_Some in Ejs.
    destruct (map_items_refines n r IH items js h h) as (items' & E & Hitems');
      [done..|].
    destruct (map_items _ items h) as [o h1]. cbn [fst snd] in *. subst o.
    pose proof (alloc_lookup (OList items') h1) as Hl.
    pose proof (alloc_subseteq (OList items') h1) as Hsub.
    destruct (alloc (OList items') h1) as [l' h2]. cbn [fst snd] in *.
    exists (VRef l'). split; [done|]. cbn [reify]. rewrite Hl.
    cbn [CreateProject.replace_placeholders].
    assert (mapM (reify n h2) items'
            = Some (map (λ j, CreateProject.replace_placeholders j r) js)) as ->;
      [|done].
    apply mapM_Some. eapply Forall2_impl; [exact Hitems'|].
    intros x y. by apply reify_weaken.
  - destruct (mapM _ fields) as [js|] eqn:Ejs; [|done].
    intros [= <-]. apply mapM_Some in Ejs.
    destruct (map_fields_refines n r IH fields js h h) as (fields' & E & Hfields');
      [done..|].
    destruct (map_fields _ fields h) as [o h1]. cbn [fst snd] in *. subst o.
    pose proof (alloc_lookup (ODict fields') h1) as Hl.
    pose proof (alloc_subseteq (ODict fields') h1) as Hsub.
    destruct (alloc (ODict fields') h1) as [l' h2]. cbn [fst snd] in *.
    exists (VRef l'). split; [done|]. cbn [reify]. rewrite Hl.
    cbn [CreateProject.replace_placeholders].
    assert (mapM (λ kv, pair kv.1 <$> reify n h2 kv.2) fields'
            = Some (map (λ kv, (kv.1, CreateProject.replace_placeholders kv.2 r)) js))
      as ->; [|done].
    apply mapM_Some. eapply Forall2_impl; [exact Hfields'|].
    intros [k x] km. cbn [fst snd].
    destruct (reify n h1 x) as [y|] eqn:Ex; [|done].
    by rewrite (reify_weaken _ _ _ _ _ Hsub Ex).
Qed.

(** A list or dict that comes back is an object the store did not hold
    before. *)
Lemma replace_placeholders_new_object (limit : nat) (r : dict string)
    (v : pyval) (h : heap) (l : nat) :
  (replace_placeholders limit v r h).1 = Some (VRef l) → h !! l = None.
Proof.
  destruct limit as [|n]; [done|]. cbn [replace_placeholders].
  destruct v as [| | | |l0]; try done.
  destruct (h !! l0) as [[items|fields]|]; [| |done].
  - pose proof (map_items_frame _ (λ x h, replace_placeholders_frame n x r h)
                  items h) as H1.
    destruct (map_items _ items h) as [[items'|] h1]; [|done].
    pose proof (alloc_fresh (OList items') h1) as Hl.
    destruct (alloc _ h1) as [l' h2]. cbn [fst snd] in *. intros [= <-].
    destruct (h !! l') as [o|] eqn:E; [|done].
    by rewrite (lookup_weaken _ _ _ _ E H1) in Hl.
  - pose proof (map_fields_frame _ (λ x h, replace_placeholders_frame n x r h)
                  fields h) as H1.
    destruct (map_fields _ fields h) as [[fields'|] h1]; [|done].
    pose proof (alloc_fresh (ODict fields') h1) as Hl.
    destruct (alloc _ h1) as [l' h2]. cbn [fst snd] in *. intros [= <-].
    destruct (h !! l') as [o|] eqn:E; [|done].
    by rewrite (lookup_weaken _ _ _ _ E H1) in Hl.
Qed.

(** ** Every document can be stored *)

Lemma reify_more_calls (n m : nat) (h : heap) (v : pyval) (j : json) :
  n ≤ m → reify n h v = Some j → reify m h v = Some j.
Proof.
  revert m v j. induction n as [|n IH]; intros m v j Hle; [done|].
  destruct m as [|m]; [lia|]. cbn [reify].
  destruct v as [| | | |l]; try done.
  destruct (h !! l) as [[items|fields]|]; [| |done].
  - destruct (mapM (reify n h) items) as [js|] eqn:Ejs; [|done].
    intros [= <-]. apply mapM_Some in Ejs.
    assert (mapM (reify m h) items = Some js) as ->; [|done].
    apply mapM_Some. eapply Forall2_impl; [exact Ejs|].
    intros x y. apply IH. lia.
  - destruct (mapM _ fields) as [js|] eqn:Ejs; [|done].
    intros [= <-]. apply mapM_Some in Ejs.
    assert (mapM (λ kv, pair kv.1 <$> reify m h kv.2) fields = Some js) as ->;
      [|done].
    apply mapM_Some. eapply Forall2_impl; [exact Ejs|].
    intros [k x] km. cbn [fst snd].
    destruct (reify n h x) as [y|] eqn:Ex; [|done].
    by rewrite (IH m x y ltac:(lia) Ex).
Qed.

Lemma store_items_well (items : list json) (h : heap) :
  Forall stored_well items →
  h ⊆ (store_items store items h).2 ∧
  mapM (reify (foldr (λ x n, Nat.max (depth x) n) 0 items)
          (store_items store items h).2)
       (store_items store items h).1 = Some items.
Proof.
  intros Hall. revert h. induction Hall as [|x items Hx _ IH]; intros h; [done|].
  cbn [store_items foldr].
  destruct (Hx h) as [Hh1 Hv]. destruct (store x h) as [v h1].
  destruct (IH h1) as [Hh2 Hvs]. destruct (store_items store items h1) as [vs h2].
  cbn [fst snd] in *. split; [by etrans|].
  apply mapM_Some. apply mapM_Some in Hvs. constructor.
  - eapply reify_more_calls; [|by eapply reify_weaken]. lia.
  - eapply Forall2_impl; [exact Hvs|]. intros v' y. apply reify_more_calls. lia.
Qed.

Lemma store_fields_well (fields : dict json) (h : heap) :
  Forall (λ kv, stored_well kv.2) fields →
  h ⊆ (store_fields store fields h).2 ∧
  mapM (λ kv, pair kv.1 <$>
                reify (foldr (λ kv n, Nat.max (depth kv.2) n) 0 fields)
                  (store_fields store fields h).2 kv.2)
       (store_fields store fields h).1 = Some fields.
Proof.
  intros Hall. revert h.
  induction Hall as [|[k x] fields Hx _ IH]; intros h; [done|].
  cbn [store_fields foldr fst snd] in *.
  destruct (Hx h) as [Hh1 Hv]. destruct (store x h) as [v h1].
  destruct (IH h1) as [Hh2 Hvs]. destruct (store_fields store fields h1) as [vs h2].
  cbn [fst snd] in *. split; [by etrans|].
  apply mapM_Some. apply mapM_Some in Hvs. constructor.
  - cbn [fst snd].
    erewrite reify_more_calls; [done| |by eapply reify_weaken]. lia.
  - eapply Forall2_impl; [exact Hvs|]. intros [k' v'] km. cbn [fst snd].
    destruct (reify _ h2 v') as [y|] eqn:Ey; [|done].
    erewrite reify_more_calls; [done| |exact Ey]. lia.
Qed.

Lemma store_well (j : json) : stored_well j.
Proof.
  induction j as [| | | |items IH|fields IH] using json_induction;
    try (intros h; split; done).
  - intros h. cbn [store depth].
    destruct (store_items_well items h IH) as [Hh1 Hvs].
    destruct (store_items store items h) as [vs h1]. cbn [fst snd] in *.
    pose proof (alloc_lookup (OList vs) h1) as Hl.
    pose proof (alloc_subseteq (OList vs) h1) as Hsub.
    destruct (alloc (OList vs) h1) as [l h2]. cbn [fst snd] in *.
    split; [by etrans|]. cbn [reify]. rewrite Hl.
    apply mapM_Some in Hvs.
    assert (mapM (reify (foldr (λ x n, Nat.max (depth x) n) 0 items) h2) vs
            = Some items) as ->; [|done].
    apply mapM_Some. eapply Forall2_impl; [exact Hvs|].
    intros v y. by apply reify_weaken.
  - intros h. cbn [store depth].
    destruct (store_fields_well fields h IH) as [Hh1 Hvs].
    destruct (store_fields store fields h) as [vs h1]. cbn [fst snd] in *.
    pose proof (alloc_lookup (ODict vs) h1) as Hl.
    pose proof (alloc_subseteq (ODict vs) h1) as Hsub.
    destruct (alloc (ODict vs) h1) as [l h2]. cbn [fst snd] in *.
    split; [by etrans|]. cbn [reify]. rewrite Hl.
    apply mapM_Some in Hvs.
    assert (mapM (λ kv, pair kv.1 <$>
                     reify (foldr (λ kv n, Nat.max (depth kv.2) n) 0 fields) h2 kv.2)
                 vs = Some fields) as ->; [|done].
    apply mapM_Some. eapply Forall2_impl; [exact Hvs|].
    intros [k v] km. cbn [fst snd].
    destruct (reify _ h1 v) as [y|] eqn:Ey; [|done].
    by rewrite (reify_weaken _ _ _ _ _ Hsub Ey).
Qed.

End HeapFacts.

(* ===================================================================== *)
(** * The subcommands *)
(* ===================================================================== *)

Module CommandFacts.
Import PyStr PyStrFacts.

(** ** The shape test *)

Lemma without_dashes_app (a b : string) :
  Spec.without_dashes (a +:+ b) = Spec.without_dashes a +:+ Spec.without_dashes b.
Proof.
  induction a as [|c a IH]; [done|].
  rewrite app_cons. cbn [Spec.without_dashes].
  destruct (Ascii.eqb c "-"); [done|]. by rewrite app_cons, IH.
Qed.

Lemma without_dashes_insert (a b : string) :
  Spec.without_dashes (a +:+ "-" +:+ b) = Spec.without_dashes (a +:+ b).
Proof. by rewrite !without_dashes_app. Qed.

Lemma hex32_shape_insert (a b : string) :
  Spec.hex32_shape (a +:+ b) → Spec.hex32_shape (a +:+ "-" +:+ b).
Proof. unfold Spec.hex32_shape. by rewrite without_dashes_insert. Qed.

Lemma chars_without_dashes (c : ascii) (s : string) :
  c ∈ Spec.chars s → c ≠ "-"%char → c ∈ Spec.chars (Spec.without_dashes s).
Proof.
  intros Hin Hc. induction s as [|d s IH]; [done|].
  cbn [Spec.chars Spec.without_dashes] in *.
  apply elem_of_cons in Hin as [->|Hin].
  - destruct (Ascii.eqb d "-") eqn:E; [by apply Ascii.eqb_eq in E|].
    apply elem_of_cons. by left.
  - destruct (Ascii.eqb d "-"); [by apply IH|].
    apply elem_of_cons. right. by apply IH.
Qed.

Lemma foreign_char_not_raw (c : ascii) (name : string) :
  c ∈ Spec.chars name → c ≠ "-"%char → ¬ Spec.lowercase_hex c →
  ¬ Spec.hex32_shape name.
Proof.
  intros Hin Hdash Hhex [_ Hall]. apply Hhex.
  eapply Forall_forall; [exact Hall|]. by apply chars_without_dashes.
Qed.

(** ** How the resolver can end *)

(** A name that is not of the raw shape makes the resolver look for the
    configuration first. *)
Lemma resolve_target_probes (w : world) (name : string) :
  ¬ Spec.hex32_shape name →
  ∃ rest,
    (NotionClient.resolve_target w name).1
      = EvExists (config_path w)
          (match config_file w with Absent => false | _ => true end) :: rest.
Proof.
  intros H. apply ResolverFacts.is_raw_id_false in H.
  unfold NotionClient.resolve_target, NotionClient.load_config. rewrite H.
  destruct (config_file w) as [| |config]; cbn; eauto.
  match goal with
  | |- context [py_get ?c ?k ?d ≫= ?f] => destruct (py_get c k d ≫= f)
  end.
  cbn. eauto.
Qed.

(** Whatever the resolver returns is the name itself, for a raw
    identifier, or the [id] that the configuration holds for the name. *)
Lemma resolve_target_returned (w : world) (name : string)
    (t : list event) (v : json) :
  NotionClient.resolve_target w name = (t, Return v) →
  (Spec.hex32_shape name ∧ t = [] ∧ v = JString name) ∨
  (¬ Spec.hex32_shape name ∧
   t = [EvExists (config_path w) true; EvLoad (config_path w)] ∧
   ∃ config targets entry,
     config_file w = Parsed (JObject config) ∧
     Spec.targets_of config = JObject targets ∧
     PyDict.get name targets = Some (JObject entry) ∧
     PyDict.get "id" entry = Some v).
Proof.
  unfold NotionClient.resolve_target, NotionClient.load_config.
  destruct (is_raw_id _) eqn:Hraw.
  { intros [= <- <-]. left. by apply ResolverFacts.is_raw_id_spec in Hraw. }
  assert (¬ Spec.hex32_shape name) as Hshape.
  { intros H%ResolverFacts.is_raw_id_spec. congruence. }
  destruct (config_file w) as [| |config]; [done..|].
  destruct config as [| | | | |fields]; try done.
  cbn -[PyDict.get PyDict.mem contains]. unfold Spec.targets_of.
  destruct (default _ _) as [| | |s|items|targets] eqn:Ht;
    cbn -[PyDict.get PyDict.mem contains]; try done.
  - by destruct (contains s name).
  - by destruct (existsb _ items).
  - unfold PyDict.mem. destruct (PyDict.get name targets) as [entry|] eqn:E;
      cbn -[PyDict.get]; [|done].
    destruct entry as [| | | | |entry]; try done.
    cbn -[PyDict.get]. destruct (PyDict.get "id" entry) as [id|] eqn:Eid; [|done].
    intros [= <- <-]. right. split; [done|]. split; [done|].
    exists fields, targets, entry. by rewrite Ht.
Qed.

(** ** The commands past the token check and the resolver *)

Lemma databases_forwarded_app (t1 t2 : list event) :
  Cli.databases_forwarded (t1 ++ t2)
    = Cli.databases_forwarded t1 ++ Cli.databases_forwarded t2.
Proof. apply omap_app. Qed.

Lemma resolve_target_forwards_no_database (w : world) (name : string) :
  Cli.databases_forwarded (NotionClient.resolve_target w name).1 = [].
Proof.
  destruct (NotionClient.resolve_target w name) as [t o] eqn:E.
  destruct o as [v|c|x].
  - apply resolve_target_returned in E as [(_ & -> & _)|(_ & -> & _)]; done.
  - revert E. unfold NotionClient.resolve_target, NotionClient.load_config.
    destruct (is_raw_id _); [done|].
    destruct (config_file w) as [| |config]; [by intros [= <- _]|done|].
    destruct config as [| | | | |fields]; try done.
    cbn -[PyDict.get PyDict.mem contains].
    destruct (default _ _) as [| | |s|items|targets];
      cbn -[PyDict.get PyDict.mem contains]; try done.
    + by destruct (contains s name).
    + by destruct (existsb _ items).
    + unfold PyDict.mem. destruct (PyDict.get name targets) as [entry|];
        cbn -[PyDict.get]; [|by intros [= <- _]].
      destruct entry as [| | | | |entry]; try done.
      cbn -[PyDict.get]. by destruct (PyDict.get "id" entry).
  - revert E. unfold NotionClient.resolve_target, NotionClient.load_config.
    destruct (is_raw_id _); [done|].
    destruct (config_file w) as [| |config]; [done|by intros [= <- _]|].
    destruct config as [| | | | |fields]; try by intros [= <- _].
    cbn -[PyDict.get PyDict.mem contains].
    destruct (default _ _) as [| | |s|items|targets];
      cbn -[PyDict.get PyDict.mem contains]; try by intros [= <- _].
    + by destruct (contains s name); intros [= <- _].
    + by destruct (existsb _ items); intros [= <- _].
    + unfold PyDict.mem. destruct (PyDict.get name targets) as [entry|];
        cbn -[PyDict.get]; [|done].
      destruct entry as [| | | | |entry]; try by intros [= <- _].
      cbn -[PyDict.get]. by destruct (PyDict.get "id" entry); intros [= <- _].
Qed.

(** What [cmd_create_page] and [cmd_create_db] do once the token is there
    and the target resolved. *)
Lemma cmd_create_page_resolved (w : world) (target : string)
    (template title : option string) (t : list event) (parent_id : json) :
  truthy (notion_api_token w) = true →
  NotionClient.resolve_target w target = (t, Return parent_id) →
  NotionClient.cmd_create_page w target template title
    = io_bind
        (λ parent_id,
           body ← (if truthy template
                   then NotionClient.load_template w (default "" template)
                   else mret (NotionClient.default_page_body title));
           body ← py_setitem body "parent" (JObject [("page_id", parent_id)]);
           result ← remote EvPagesCreate (pages_create w) body;
           emit (EvStdoutJson result))
        (t, Return parent_id).
Proof.
  intros Htok Hres.
  unfold NotionClient.cmd_create_page, NotionClient.get_client.
  rewrite Htok. cbn [negb].
  change (mret () ≫= ?f) with (io_bind f (io_ret ())).
  cbn [io_bind io_ret app]. rewrite Hres.
  change ((t, Return parent_id) ≫= ?f) with (io_bind f (t, Return parent_id)).
  cbn [io_bind].
  match goal with
  | |- context [let '(_, _) := ?x in (t ++ _, _)] => by destruct x
  end.
Qed.

Lemma cmd_create_db_resolved (w : world) (target : string)
    (template title : option string) (t : list event) (parent_id : json) :
  truthy (notion_api_token w) = true →
  NotionClient.resolve_target w target = (t, Return parent_id) →
  NotionClient.cmd_create_db w target template title
    = io_bind
        (λ parent_id,
           body ← (if truthy template
                   then NotionClient.load_template w (default "" template)
                   else mret (NotionClient.default_db_body title));
           body ← py_setitem body "parent" (JObject [("page_id", parent_id)]);
           body ← py_pop body "object";
           result ← remote EvDatabasesCreate (databases_create w) body;
           emit (EvStdoutJson result))
        (t, Return parent_id).
Proof.
  intros Htok Hres.
  unfold NotionClient.cmd_create_db, NotionClient.get_client.
  rewrite Htok. cbn [negb].
  change (mret () ≫= ?f) with (io_bind f (io_ret ())).
  cbn [io_bind io_ret app]. rewrite Hres.
  change ((t, Return parent_id) ≫= ?f) with (io_bind f (t, Return parent_id)).
  cbn [io_bind].
  match goal with
  | |- context [let '(_, _) := ?x in (t ++ _, _)] => by destruct x
  end.
Qed.

(** ** Traces of the subcommands *)

Lemma events_lift (t : list event) : Cli.events (Cli.Did <$> t) = t.
Proof. induction t as [|ev t IH]; [done|]. cbn in *. by f_equal. Qed.

Lemma events_app (t1 t2 : list Cli.step) :
  Cli.events (t1 ++ t2) = Cli.events t1 ++ Cli.events t2.
Proof. apply omap_app. Qed.

Lemma requests_app (t1 t2 : list Cli.step) :
  Cli.requests (t1 ++ t2) = Cli.requests t1 ++ Cli.requests t2.
Proof. apply omap_app. Qed.

Lemma requests_lift (t : list event) : Cli.requests (Cli.Did <$> t) = [].
Proof. induction t as [|ev t IH]; [done|]. exact IH. Qed.

(** ** The keys of the finished bodies *)

Lemma mem_set_ne {V} (k k' : string) (v : V) (d : dict V) :
  k ≠ k' → PyDict.mem k' (PyDict.set k v d) = PyDict.mem k' d.
Proof. intros Hne. unfold PyDict.mem. by rewrite DictFacts.get_set_ne. Qed.

Lemma mem_pop_ne {V} (k k' : string) (d : dict V) :
  k ≠ k' → PyDict.mem k' (PyDict.pop k d) = PyDict.mem k' d.
Proof. intros Hne. unfold PyDict.mem. by rewrite DictFacts.get_pop_ne. Qed.

Lemma mem_map {V W} (f : V → W) (k : string) (d : dict V) :
  PyDict.mem k (map (λ kv, (kv.1, f kv.2)) d) = PyDict.mem k d.
Proof.
  unfold PyDict.mem. rewrite (DictFacts.get_map f).
  by destruct (PyDict.get k d).
Qed.

(** [remote] on a body that is an object. *)
Lemma remote_object {A} (call : json → event) (answer : json → option A)
    (d : dict json) :
  remote call answer (JObject d)
    = if PyDict.mem "self" d
      then ([], Raise TypeError)
      else ([call (JObject d)],
            match answer (JObject d) with
            | Some r => Return r
            | None => Raise APIResponseError
            end).
Proof.
  unfold remote, keywords.
  destruct (PyDict.mem "self" d); [done|].
  cbn. by destruct (answer _).
Qed.

Lemma create_project_page_run (w : world) (parent_id : json)
    (project_name template_name icon : string) (fields : dict json) :
  template_file w template_name = Parsed (JObject fields) →
  let body :=
    JObject
      (PyDict.pop "object"
         (PyDict.set "icon"
            (JObject [("type", JString "emoji"); ("emoji", JString icon)])
            (PyDict.set "parent" (JObject [("page_id", parent_id)])
               (map (λ kv, (kv.1, CreateProject.replace_placeholders kv.2
                                    [("PROJECT_NAME", project_name);
                                     ("DATE", today w)])) fields)))) in
  CreateProject.create_project_page w parent_id project_name template_name icon
    = if PyDict.mem "self" fields
      then ([EvExists (template_path w template_name) true;
             EvLoad (template_path w template_name)],
            Raise TypeError)
      else ([EvExists (template_path w template_name) true;
             EvLoad (template_path w template_name);
             EvPagesCreate body],
            match pages_create w body with
            | Some result => Return result
            | None => Raise APIResponseError
            end).
Proof.
  intros Hf body. subst body.
  unfold CreateProject.create_project_page, CreateProject.load_template.
  rewrite Hf. cbn -[PyDict.pop PyDict.set map remote].
  rewrite remote_object.
  rewrite mem_pop_ne, !mem_set_ne by done.
  rewrite (mem_map (λ v, CreateProject.replace_placeholders v _)).
  destruct (PyDict.mem "self" fields); [done|].
  by destruct (pages_create w _).
Qed.

End CommandFacts.

(* ===================================================================== *)
(** * The request body in the store, and the depth of the walk *)
(* ===================================================================== *)

Module BodyFacts.
Import PyHeap PyBody HeapFacts.

Lemma new_dict_subseteq (fields : dict pyval) (h : heap) :
  h ⊆ (new_dict fields h).2.
Proof.
  unfold new_dict. pose proof (alloc_subseteq (ODict fields) h) as H.
  by destruct (alloc _ h).
Qed.

Lemma setitem_keeps (h0 : heap) (l : nat) (key : string) (value : pyval) :
  h0 !! l = None → keeps h0 (setitem (VRef l) key value).
Proof.
  intros Hl h Hsub. unfold setitem.
  destruct (h !! l) as [[items|fields]|]; try done.
  by apply insert_subseteq_r.
Qed.

Lemma pop_keeps (h0 : heap) (l : nat) (key : string) :
  h0 !! l = None → keeps h0 (pop (VRef l) key).
Proof.
  intros Hl h Hsub. unfold pop.
  destruct (h !! l) as [[items|fields]|]; try done.
  by apply insert_subseteq_r.
Qed.

Lemma setitem_value (obj : pyval) (key : string) (value : pyval) (h : heap) :
  (setitem obj key value h).1 = None → (setitem obj key value h).2 = h.
Proof.
  unfold setitem. destruct obj as [| | | |l]; try done.
  by destruct (h !! l) as [[?|?]|].
Qed.

Lemma create_project_page_body_frame (limit : nat) (body parent_id : pyval)
    (project_name today icon : string) (h : heap) :
  h ⊆ (create_project_page_body limit body parent_id project_name today icon h).2.
Proof.
  unfold create_project_page_body.
  set (r := [("PROJECT_NAME", project_name); ("DATE", today)]).
  pose proof (replace_placeholders_frame limit body r h) as H1.
  pose proof (replace_placeholders_new_object limit r body h) as Hnew.
  destruct (replace_placeholders limit body r h) as [[b|] h1]; [|done].
  cbn [fst snd] in *.
  pose proof (new_dict_subseteq [("page_id", parent_id)] h1) as H2.
  destruct (new_dict _ h1) as [parent h2]. cbn [snd] in H2.
  assert (h ⊆ h2) as H02 by by etrans.
  destruct b as [| | | |l]; try done.
  specialize (Hnew l eq_refl).
  pose proof (setitem_keeps h l "parent" parent Hnew h2 H02) as H3.
  destruct (setitem (VRef l) "parent" parent h2) as [[[]|] h3]; [|done].
  cbn [snd] in H3.
  pose proof (new_dict_subseteq [("type", VStr "emoji"); ("emoji", VStr icon)] h3)
    as H4.
  destruct (new_dict _ h3) as [emoji h4]. cbn [snd] in H4.
  assert (h ⊆ h4) as H04 by by etrans.
  pose proof (setitem_keeps h l "icon" emoji Hnew h4 H04) as H5.
  destruct (setitem (VRef l) "icon" emoji h4) as [[[]|] h5]; [|done].
  cbn [snd] in H5.
  pose proof (pop_keeps h l "object" Hnew h5 H5) as H6.
  by destruct (pop (VRef l) "object" h5) as [[[]|] h6].
Qed.


(** ** The object that is built stands for the body that is sent *)

Lemma entries_stand_for_weaken (n n' : nat) (h h' : heap)
    (fields : dict pyval) (js : dict json) :
  n ≤ n' → h ⊆ h' →
  entries_stand_for n h fields js → entries_stand_for n' h' fields js.
Proof.
  intros Hn Hh Hall. eapply Forall2_impl; [exact Hall|].
  intros [k v] km. cbn [fst snd].
  destruct (reify n h v) as [j|] eqn:E; [|done].
  by rewrite (reify_more_calls n n' h' v j Hn (reify_weaken _ _ _ _ _ Hh E)).
Qed.

Lemma entries_stand_for_set (n : nat) (h : heap) (fields : dict pyval)
    (js : dict json) (k : string) (v : pyval) (j : json) :
  entries_stand_for n h fields js →
  reify n h v = Some j →
  entries_stand_for n h (PyDict.set k v fields) (PyDict.set k j js).
Proof.
  intros Hall Hv. induction Hall as [|[k1 v1] [k2 j2] fields js H1 Hrest IH].
  - constructor; [|constructor]. cbn. by rewrite Hv.
  - cbn [fst snd] in H1. destruct (reify n h v1) as [j1|] eqn:E1; [|done].
    cbn in H1. injection H1 as <- <-. cbn [PyDict.set].
    destruct (String.eqb k k1).
    + constructor; [|done]. cbn. by rewrite Hv.
    + constructor; [|done]. cbn. by rewrite E1.
Qed.

Lemma entries_stand_for_pop (n : nat) (h : heap) (fields : dict pyval)
    (js : dict json) (k : string) :
  entries_stand_for n h fields js →
  entries_stand_for n h (PyDict.pop k fields) (PyDict.pop k js).
Proof.
  intros Hall. induction Hall as [|[k1 v1] [k2 j2] fields js H1 Hrest IH];
    [constructor|].
  cbn [fst snd] in H1. destruct (reify n h v1) as [j1|] eqn:E1; [|done].
  cbn in H1. injection H1 as <- <-. cbn [PyDict.pop].
  destruct (String.eqb k k1); [done|].
  constructor; [|done]. cbn. by rewrite E1.
Qed.

Lemma reify_dict (n : nat) (h : heap) (l : nat) (fields : dict pyval)
    (js : dict json) :
  h !! l = Some (ODict fields) →
  entries_stand_for n h fields js →
  reify (S n) h (VRef l) = Some (JObject js).
Proof.
  intros Hl Hall. cbn [reify]. rewrite Hl.
  by rewrite (proj2 (mapM_Some _ _ _) Hall).
Qed.

Lemma new_dict_eq (fields : dict pyval) (h : heap) :
  new_dict fields h
    = (VRef (fresh (dom h)), <[fresh (dom h) := ODict fields]> h).
Proof. reflexivity. Qed.

Lemma setitem_dict (l : nat) (fields : dict pyval) (key : string)
    (value : pyval) (h : heap) :
  h !! l = Some (ODict fields) →
  setitem (VRef l) key value h
    = (Some (), <[l := ODict (PyDict.set key value fields)]> h).
Proof. intros H. unfold setitem. by rewrite H. Qed.

Lemma pop_dict (l : nat) (fields : dict pyval) (key : string) (h : heap) :
  h !! l = Some (ODict fields) →
  pop (VRef l) key h = (Some (), <[l := ODict (PyDict.pop key fields)]> h).
Proof. intros H. unfold pop. by rewrite H. Qed.

(** The substitution of a stored dict, step by step. *)
Lemma replace_dict_steps (n : nat) (r : dict string) (l : nat)
    (js : dict json) (h : heap) :
  reify (S n) h (VRef l) = Some (JObject js) →
  ∃ fields' h1 l',
    h ⊆ h1 ∧ h1 !! l' = None ∧
    entries_stand_for n h1 fields'
      (map (λ kv, (kv.1, CreateProject.replace_placeholders kv.2 r)) js) ∧
    replace_placeholders (S n) (VRef l) r h
      = (Some (VRef l'), <[l' := ODict fields']> h1).
Proof.
  cbn [reify replace_placeholders].
  destruct (h !! l) as [[items|fields]|] eqn:El; [|..|done].
  { by destruct (mapM _ items). }
  destruct (mapM _ fields) as [js'|] eqn:Ejs; [|done].
  intros [= ->]. apply mapM_Some in Ejs.
  destruct (map_fields_refines n r (λ v j h, replace_placeholders_refines n r v j h)
              fields js h h) as (fields' & E & Hfields'); [done..|].
  pose proof (map_fields_frame _ (λ x h, replace_placeholders_frame n x r h)
                fields h) as Hframe.
  destruct (map_fields _ fields h) as [o h1]. cbn [fst snd] in *. subst o.
  exists fields', h1, (fresh (dom h1)).
  split; [done|]. split; [apply (alloc_fresh (ODict fields') h1)|].
  by split.
Qed.

Lemma create_project_page_body_refines (limit m : nat) (body parent_id : pyval)
    (fields : dict json) (pid : json) (project_name today icon : string)
    (h : heap) :
  reify limit h body = Some (JObject fields) →
  reify m h parent_id = Some pid →
  ∃ result,
    (create_project_page_body limit body parent_id project_name today icon h).1
      = Some result ∧
    reify (limit + m + 2)
      (create_project_page_body limit body parent_id project_name today icon h).2
      result
    = Some (JObject
        (PyDict.pop "object"
           (PyDict.set "icon"
              (JObject [("type", JString "emoji"); ("emoji", JString icon)])
              (PyDict.set "parent" (JObject [("page_id", pid)])
                 (map (λ kv, (kv.1, CreateProject.replace_placeholders kv.2
                                      [("PROJECT_NAME", project_name);
                                       ("DATE", today)])) fields))))).
Proof.
  intros Hbody Hpid. unfold create_project_page_body.
  set (r := [("PROJECT_NAME", project_name); ("DATE", today)]).
  destruct limit as [|n]; [done|].
  destruct body as [| | | |l]; try done.
  destruct (replace_dict_steps n r l fields h Hbody)
    as (fs & h1 & l' & Hh1 & Hl' & Hfs & ->).
  (* the parent dict *)
  rewrite new_dict_eq.
  set (h2 := <[l' := ODict fs]> h1).
  set (lp := fresh (dom h2)).
  assert (h2 !! lp = None) as Hlp by apply not_elem_of_dom, is_fresh.
  assert (lp ≠ l') as Hne1.
  { intros E. rewrite E in Hlp. subst h2. by rewrite lookup_insert_eq in Hlp. }
  assert (h1 !! lp = None) as Hlp1.
  { subst h2. by rewrite lookup_insert_ne in Hlp. }
  set (h3 := <[lp := _]> h2).
  assert (h3 !! l' = Some (ODict fs)) as Hb3.
  { subst h3 h2. by rewrite lookup_insert_ne, lookup_insert_eq. }
  rewrite (setitem_dict _ _ _ _ _ Hb3).
  set (h4 := <[l' := _]> h3).
  (* the icon dict *)
  rewrite new_dict_eq.
  set (li := fresh (dom h4)).
  assert (h4 !! li = None) as Hli by apply not_elem_of_dom, is_fresh.
  assert (li ≠ l') as Hne2.
  { intros E. rewrite E in Hli. subst h4. by rewrite lookup_insert_eq in Hli. }
  assert (li ≠ lp) as Hne3.
  { intros E. rewrite E in Hli. subst h4 h3.
    by rewrite lookup_insert_ne, lookup_insert_eq in Hli. }
  assert (h1 !! li = None) as Hli1.
  { subst h4 h3 h2. by rewrite !lookup_insert_ne in Hli. }
  set (h5 := <[li := _]> h4).
  assert (h5 !! l' = Some (ODict (PyDict.set "parent" (VRef lp) fs))) as Hb5.
  { subst h5 h4. by rewrite lookup_insert_ne, lookup_insert_eq. }
  rewrite (setitem_dict _ _ _ _ _ Hb5).
  set (h6 := <[l' := _]> h5).
  assert (h6 !! l' = Some (ODict (PyDict.set "icon" (VRef li)
                                    (PyDict.set "parent" (VRef lp) fs)))) as Hb6.
  { subst h6. by rewrite lookup_insert_eq. }
  rewrite (pop_dict _ _ _ _ Hb6).
  set (h7 := <[l' := _]> h6).
  cbn [fst snd]. eexists. split; [done|].
  (* what the final store holds *)
  assert (h1 ⊆ h7) as Hsub.
  { subst h7 h6 h5 h4 h3 h2. by repeat apply insert_subseteq_r. }
  assert (h7 !! lp = Some (ODict [("page_id", parent_id)])) as Hp7.
  { subst h7 h6 h5 h4 h3.
    by rewrite !lookup_insert_ne, lookup_insert_eq by done. }
  assert (h7 !! li = Some (ODict [("type", VStr "emoji"); ("emoji", VStr icon)]))
    as Hi7.
  { subst h7 h6 h5. by rewrite !lookup_insert_ne, lookup_insert_eq by done. }
  replace (S n + m + 2) with (S (n + m + 2)) by lia.
  apply reify_dict with
    (fields := PyDict.pop "object"
                 (PyDict.set "icon" (VRef li) (PyDict.set "parent" (VRef lp) fs))).
  { subst h7. by rewrite lookup_insert_eq. }
  apply entries_stand_for_pop, entries_stand_for_set; [apply entries_stand_for_set|].
  - eapply entries_stand_for_weaken; [|exact Hsub|exact Hfs]. lia.
  - replace (n + m + 2) with (S (n + m + 1)) by lia.
    apply reify_dict with (fields := [("page_id", parent_id)]); [done|].
    constructor; [|constructor]. cbn [fst snd].
    erewrite reify_more_calls; [done| |eapply reify_weaken; [|exact Hpid]].
    + lia.
    + by etrans.
  - replace (n + m + 2) with (S (S (n + m))) by lia.
    apply reify_dict with
      (fields := [("type", VStr "emoji"); ("emoji", VStr icon)]); [done|].
    by repeat constructor.
Qed.

End BodyFacts.

Module DepthFacts.
Import PyHeap HeapFacts.




Section needs.
Context (r : dict string) (m : nat) (h : heap).
Context (IH : ∀ v doc,
  reify m h v = Some doc →
  ∀ limit h', h ⊆ h' →
    is_Some (replace_placeholders limit v r h').1 ↔ depth doc ≤ limit).


End needs.


End DepthFacts.

(* ===================================================================== *)
(** * The properties of the specification *)
(* ===================================================================== *)

(** ** Target resolution *)

(** C1: a name whose dash-stripped form is 32 lowercase hexadecimal digits
    is returned as it was given, dashes included, in either script and in
    every surrounding: whatever the configuration holds, and also when it
    is missing.  The run performs no event, so the configuration is neither
    probed nor read. *)
Theorem C1_raw_identifier_bypasses_table (w : world) (name : string) :
  Spec.hex32_shape name →
  NotionClient.resolve_target w name = ([], Return (JString name)) ∧
  CreateProject.resolve_target w name = ([], Return (JString name)).
Proof.
  intros H. rewrite ResolverFacts.resolve_target_same.
  split; by apply ResolverFacts.resolve_raw.
Qed.

Lemma C1_witness :
  NotionClient.resolve_target (Sample.with_config Absent) Sample.raw_id
    = ([], Return (JString Sample.raw_id)) ∧
  CreateProject.resolve_target (Sample.with_config Absent) Sample.raw_id
    = ([], Return (JString Sample.raw_id)).
Proof.
  apply (C1_raw_identifier_bypasses_table (Sample.with_config Absent) Sample.raw_id).
  apply ResolverFacts.is_raw_id_spec. vm_compute. reflexivity.
Defined.

(** C3: a friendly name that is not of the raw-identifier shape and is a
    key of the targets mapping resolves to the [id] of its entry, in either
    script. *)
Theorem C3_friendly_name_resolves (w : world) (name : string)
    (config targets entry : dict json) (id : json) :
  ¬ Spec.hex32_shape name →
  config_file w = Parsed (JObject config) →
  PyDict.get "targets" config = Some (JObject targets) →
  PyDict.get name targets = Some (JObject entry) →
  PyDict.get "id" entry = Some id →
  NotionClient.resolve_target w name
    = ([EvExists (config_path w) true; EvLoad (config_path w)], Return id) ∧
  CreateProject.resolve_target w name
    = ([EvExists (config_path w) true; EvLoad (config_path w)], Return id).
Proof.
  intros H Hf Ht Hn Hid. rewrite ResolverFacts.resolve_target_same.
  split; eapply ResolverFacts.resolve_known; eauto;
    unfold Spec.targets_of; by rewrite Ht.
Qed.

Lemma C3_witness :
  NotionClient.resolve_target Sample.here "project-db"
    = ([EvExists "/repo/notion-config.json" true; EvLoad "/repo/notion-config.json"],
       Return (JString "xyz")) ∧
  CreateProject.resolve_target Sample.here "project-db"
    = ([EvExists "/repo/notion-config.json" true; EvLoad "/repo/notion-config.json"],
       Return (JString "xyz")).
Proof.
  eapply (C3_friendly_name_resolves Sample.here "project-db"); try reflexivity.
  intros [H _]. vm_compute in H. discriminate H.
Defined.

(** C5: a name that is neither of the raw-identifier shape nor a key of
    the targets mapping, with the configuration in place, ends the run with
    the unknown-target report; its last line lists every known friendly
    name, and none at all when the mapping is empty. *)
Theorem C5_unknown_target_reported (w : world) (name : string)
    (config targets : dict json) :
  ¬ Spec.hex32_shape name →
  config_file w = Parsed (JObject config) →
  Spec.targets_of config = JObject targets →
  PyDict.get name targets = None →
  (NotionClient.resolve_target w name
     = Spec.UnknownTargetError w name (PyDict.keys targets) ∧
   CreateProject.resolve_target w name
     = Spec.UnknownTargetError w name (PyDict.keys targets)) ∧
  (∀ known, known ∈ PyDict.keys targets →
     Spec.occurs known
       ("Available targets: " +:+ PyStr.join ", " (PyDict.keys targets))).
Proof.
  intros H Hf Ht Hn. split.
  - rewrite ResolverFacts.resolve_target_same.
    split; by eapply ResolverFacts.resolve_unknown.
  - intros known Hin. by apply PyStrFacts.occurs_app_r, PyStrFacts.join_occurs.
Qed.

Lemma C5_witness :
  (NotionClient.resolve_target Sample.here "missing-target"
     = Spec.UnknownTargetError Sample.here "missing-target" ["project-db"; "inbox"] ∧
   CreateProject.resolve_target Sample.here "missing-target"
     = Spec.UnknownTargetError Sample.here "missing-target" ["project-db"; "inbox"]) ∧
  (∀ known, known ∈ ["project-db"; "inbox"] →
     Spec.occurs known
       ("Available targets: " +:+ PyStr.join ", " ["project-db"; "inbox"])).
Proof.
  apply (C5_unknown_target_reported Sample.here "missing-target"
           Sample.config_fields Sample.targets); try reflexivity.
  intros [H _]. vm_compute in H. discriminate H.
Defined.

(** C8: a name that is not of the raw-identifier shape, with the
    configuration document missing, ends the run with the config-not-found
    report.  The only event before the report is the probe for the file:
    nothing is loaded and nothing is looked up. *)
Theorem C8_missing_config_reported (w : world) (name : string) :
  ¬ Spec.hex32_shape name →
  config_file w = Absent →
  NotionClient.resolve_target w name = Spec.ConfigNotFoundError w ∧
  CreateProject.resolve_target w name = Spec.ConfigNotFoundError w.
Proof.
  intros H Hf. rewrite ResolverFacts.resolve_target_same.
  split; by apply ResolverFacts.resolve_absent.
Qed.

Lemma C8_witness :
  NotionClient.resolve_target (Sample.with_config Absent) "project-db"
    = Spec.ConfigNotFoundError (Sample.with_config Absent) ∧
  CreateProject.resolve_target (Sample.with_config Absent) "project-db"
    = Spec.ConfigNotFoundError (Sample.with_config Absent).
Proof.
  apply (C8_missing_config_reported (Sample.with_config Absent) "project-db");
    [|reflexivity].
  intros [H _]. vm_compute in H. discriminate H.
Defined.

(** C10: when the configuration parses to an object without a [targets]
    key, the targets mapping counts as empty: a name that is not of the
    raw-identifier shape ends the run with the unknown-target report and an
    empty list of names, not with a configuration or parse error. *)
Theorem C10_missing_targets_key_is_empty (w : world) (name : string)
    (config : dict json) :
  ¬ Spec.hex32_shape name →
  config_file w = Parsed (JObject config) →
  PyDict.get "targets" config = None →
  (NotionClient.resolve_target w name = Spec.UnknownTargetError w name [] ∧
   CreateProject.resolve_target w name = Spec.UnknownTargetError w name []) ∧
  Spec.UnknownTargetError w name [] =
    ([EvExists (config_path w) true;
      EvLoad (config_path w);
      EvStderr ("Error: Target '" +:+ name +:+ "' not found in notion-config.json");
      EvStderr "Available targets: "],
     SysExit 1).
Proof.
  intros H Hf Ht. split; [|reflexivity].
  rewrite ResolverFacts.resolve_target_same.
  split; eapply (ResolverFacts.resolve_unknown w name config []); eauto;
    unfold Spec.targets_of; by rewrite Ht.
Qed.

Lemma C10_witness :
  (NotionClient.resolve_target Sample.bare "project-db"
     = Spec.UnknownTargetError Sample.bare "project-db" [] ∧
   CreateProject.resolve_target Sample.bare "project-db"
     = Spec.UnknownTargetError Sample.bare "project-db" []) ∧
  Spec.UnknownTargetError Sample.bare "project-db" [] =
    ([EvExists "/repo/notion-config.json" true;
      EvLoad "/repo/notion-config.json";
      EvStderr ("Error: Target '" +:+ "project-db" +:+ "' not found in notion-config.json");
      EvStderr "Available targets: "],
     SysExit 1).
Proof.
  eapply (C10_missing_targets_key_is_empty Sample.bare "project-db");
    try reflexivity.
  intros [H _]. vm_compute in H. discriminate H.
Defined.

(** ** Template substitution *)

(** C2, as amended: the result has the structure of the input, with the
    same keys in the same order and the same numbers, booleans and nulls,
    and mapping keys are never rewritten.  Each string leaf is what the
    passes for the entries of the replacement set produce when they run one
    after another, in iteration order, each on the string the previous one
    left, and each replacing the occurrences of its token [{{key}}] from
    the left; that result is the only one.  No error arises.  When no key
    of the replacement set holds a brace, a token [{{B}}] of a brace-free
    key [B] that is not in the set stays in place, and the text before it
    and the text after it are substituted on their own. *)
Theorem C2_substitute_structure_and_passes (doc : json) (r : dict string) :
  Spec.leafwise
    (λ s t,
       Spec.applied_in_order r s t ∧
       (∀ t', Spec.applied_in_order r s t' → t' = t) ∧
       (Forall Spec.brace_free (PyDict.keys r) →
        ∀ B p q,
          Spec.brace_free B →
          PyDict.get B r = None →
          s = p +:+ Spec.token B +:+ q →
          ∃ p' q',
            Spec.applied_in_order r p p' ∧
            Spec.applied_in_order r q q' ∧
            t = p' +:+ Spec.token B +:+ q'))
    doc (CreateProject.replace_placeholders doc r).
Proof.
  apply TemplateFacts.replace_placeholders_leafwise. intros s.
  split; [apply TemplateFacts.replace_in_string_applied|].
  split; [apply TemplateFacts.applied_in_order_unique|].
  intros Hr B p q HB Hget ->.
  exists (CreateProject.replace_in_string p r),
         (CreateProject.replace_in_string q r).
  split; [apply TemplateFacts.replace_in_string_applied|].
  split; [apply TemplateFacts.replace_in_string_applied|].
  by apply TemplateFacts.replace_in_string_around_token.
Qed.

Lemma C2_witness :
  ∃ p' q',
    Spec.applied_in_order Sample.replacements "Started {{DATE}} by " p' ∧
    Spec.applied_in_order Sample.replacements "" q' ∧
    CreateProject.replace_in_string "Started {{DATE}} by {{OTHER}}" Sample.replacements
      = p' +:+ Spec.token "OTHER" +:+ q'.
Proof.
  pose proof (C2_substitute_structure_and_passes
                (JString "Started {{DATE}} by {{OTHER}}") Sample.replacements) as H.
  cbn [CreateProject.replace_placeholders] in H.
  inversion H as [ | | |s t (_ & _ & Hkeep) Hs Ht| | ].
  apply (Hkeep ltac:(apply (bool_decide_unpack _); vm_compute; exact I)
           "OTHER" "Started {{DATE}} by " "").
  - apply (bool_decide_unpack _). vm_compute. exact I.
  - reflexivity.
  - reflexivity.
Defined.

(** C2 as stated fails on two counts.  A key may hold braces, and its
    token then overlaps the token of an absent key, which is destroyed:
    [{{{{A}}}}] with the key [{{A] loses [{{A}}].  And a value may hold the
    token of a later key: the token [{{PROJECT_NAME}}] does not end as the
    value of its key, [{{DATE}}], but as the date. *)
Lemma C2_counterexample :
  (CreateProject.replace_placeholders (JString "{{{{A}}}}") [("{{A", "x")]
     = JString "x}}" ∧
   PyDict.get "A" [("{{A", "x")] = None ∧
   PyStr.contains "{{{{A}}}}" (Spec.token "A") = true ∧
   PyStr.contains "x}}" (Spec.token "A") = false) ∧
  (CreateProject.replace_placeholders (JString "{{PROJECT_NAME}}")
     [("PROJECT_NAME", "{{DATE}}"); ("DATE", "2024-01-15")]
     = JString "2024-01-15" ∧
   PyDict.get "PROJECT_NAME" [("PROJECT_NAME", "{{DATE}}"); ("DATE", "2024-01-15")]
     = Some "{{DATE}}" ∧
   PyStr.contains "{{PROJECT_NAME}}" (Spec.token "DATE") = false).
Proof. vm_compute. repeat split. Qed.

(** C6: with an empty replacement set the document comes back as it
    is; more generally it does whenever no token of the replacement set
    occurs in any of its string leaves. *)
Theorem C6_empty_replacements_identity (doc : json) :
  CreateProject.replace_placeholders doc [] = doc ∧
  (∀ r, Spec.no_key_matches doc r →
        CreateProject.replace_placeholders doc r = doc).
Proof.
  split; [apply TemplateFacts.replace_placeholders_nil|].
  apply TemplateFacts.replace_placeholders_no_match.
Qed.

(** C9: the keys are applied one after another, each to the string the
    earlier ones produced: a replacement set split in two acts as its first
    part followed by its second.  A value that brings in the token of a
    later key is therefore rewritten by that key's pass, and the result can
    differ from a substitution that replaces all tokens of the original
    string at once. *)
Theorem C9_substitution_is_sequential :
  (∀ s r1 r2,
     CreateProject.replace_in_string s (r1 ++ r2)
       = CreateProject.replace_in_string (CreateProject.replace_in_string s r1) r2) ∧
  (∀ key1 value1 key2 value2,
     CreateProject.replace_in_string (Spec.token key1)
         [(key1, value1); (key2, value2)]
       = PyStr.replace value1 (Spec.token key2) value2) ∧
  (∀ key1 key2 value2,
     CreateProject.replace_placeholders (JString (Spec.token key1))
         [(key1, Spec.token key2); (key2, value2)]
       = JString value2) ∧
  (CreateProject.replace_placeholders (JString "{{A}}") [("A", "{{B}}"); ("B", "y")]
     = JString "y" ∧
   Spec.simultaneous "{{A}}" [("A", "{{B}}"); ("B", "y")] = "{{B}}").
Proof.
  split; [apply TemplateFacts.replace_in_string_app|].
  split.
  { intros. rewrite TemplateFacts.replace_in_string_cons.
    by rewrite TemplateFacts.replace_token_itself. }
  split; [|by vm_compute].
  intros. cbn [CreateProject.replace_placeholders]. f_equal.
  rewrite !TemplateFacts.replace_in_string_cons.
  by rewrite !TemplateFacts.replace_token_itself.
Qed.

(** ** Finishing the request body *)

(** C7, as amended: when the template has no top-level key [self],
    [create_project_page] hands the service one body, the substituted
    template with [parent] and [icon] set, without a top-level [object],
    and with every other top-level field as the substitution left it.
    [cmd_create_page] does not substitute and sets no icon: it hands over
    the template as loaded with [parent] set, every top-level field other
    than [parent] and [object] being unchanged.  With a top-level key
    [self] in the template the body cannot be passed as keywords: both
    entry points end in TypeError and hand nothing to the service. *)
Theorem C7_request_body_completion (w : world) (template_name : string)
    (fields : dict json) :
  template_file w template_name = Parsed (JObject fields) →
  PyDict.wf fields →
  (∀ parent_id project_name icon,
     let replacements := [("PROJECT_NAME", project_name); ("DATE", today w)] in
     let run := CreateProject.create_project_page w parent_id project_name
                  template_name icon in
     (PyDict.mem "self" fields = false →
      ∃ body,
        Spec.pages_forwarded run.1 = [JObject body] ∧
        PyDict.wf body ∧
        PyDict.get "parent" body = Some (JObject [("page_id", parent_id)]) ∧
        PyDict.get "icon" body
          = Some (JObject [("type", JString "emoji"); ("emoji", JString icon)]) ∧
        PyDict.get "object" body = None ∧
        ∀ k, k ≠ "parent" → k ≠ "icon" → k ≠ "object" →
          PyDict.get k body
            = (λ v, CreateProject.replace_placeholders v replacements)
                <$> PyDict.get k fields) ∧
     (PyDict.mem "self" fields = true →
      Spec.pages_forwarded run.1 = [] ∧ run.2 = Raise TypeError)) ∧
  (∀ target title trace parent_id,
     truthy (notion_api_token w) = true →
     template_name ≠ "" →
     NotionClient.resolve_target w target = (trace, Return parent_id) →
     let run := NotionClient.cmd_create_page w target (Some template_name)
                  title in
     (PyDict.mem "self" fields = false →
      ∃ body,
        Spec.pages_forwarded run.1 = [JObject body] ∧
        PyDict.get "parent" body = Some (JObject [("page_id", parent_id)]) ∧
        ∀ k, k ≠ "parent" → k ≠ "object" →
          PyDict.get k body = PyDict.get k fields) ∧
     (PyDict.mem "self" fields = true →
      Spec.pages_forwarded run.1 = [] ∧ run.2 = Raise TypeError)).
Proof.
  intros Hf Hwf. split.
  - intros parent_id project_name icon replacements run.
    assert (PyDict.wf
              (map (λ kv, (kv.1, CreateProject.replace_placeholders kv.2 replacements))
                 fields)) as Hwf'.
    { unfold PyDict.wf.
      by rewrite (DictFacts.keys_map
                    (λ v, CreateProject.replace_placeholders v replacements)). }
    subst run.
    rewrite (CommandFacts.create_project_page_run _ _ _ _ _ _ Hf).
    split; intros Hself; rewrite Hself; [|done].
    exists (PyDict.pop "object"
              (PyDict.set "icon"
                 (JObject [("type", JString "emoji"); ("emoji", JString icon)])
                 (PyDict.set "parent" (JObject [("page_id", parent_id)])
                    (map (λ kv, (kv.1, CreateProject.replace_placeholders kv.2
                                         replacements)) fields)))).
    split; [|split; [|split; [|split; [|split]]]].
    + done.
    + by apply DictFacts.wf_pop; do 2 apply DictFacts.wf_set.
    + rewrite DictFacts.get_pop_ne, DictFacts.get_set_ne, DictFacts.get_set_eq; done.
    + rewrite DictFacts.get_pop_ne, DictFacts.get_set_eq; done.
    + apply DictFacts.get_pop_eq. by do 2 apply DictFacts.wf_set.
    + intros k ???.
      rewrite DictFacts.get_pop_ne, !DictFacts.get_set_ne by done.
      apply (DictFacts.get_map
               (λ v, CreateProject.replace_placeholders v replacements)).
  - intros target title trace parent_id Htok Hname Hres run.
    pose proof (ResolverFacts.resolve_target_forwards_nothing w target) as Hnone.
    rewrite Hres in Hnone. cbn [fst] in Hnone.
    assert (run =
            if PyDict.mem "self" fields
            then (trace ++ [EvExists (template_path w template_name) true;
                            EvLoad (template_path w template_name)],
                  Raise TypeError)
            else let body := JObject (PyDict.set "parent"
                                        (JObject [("page_id", parent_id)]) fields) in
                 (trace ++ [EvExists (template_path w template_name) true;
                            EvLoad (template_path w template_name);
                            EvPagesCreate body] ++
                    match pages_create w body with
                    | Some result => [EvStdoutJson result]
                    | None => []
                    end,
                  match pages_create w body with
                  | Some result => Return ()
                  | None => Raise APIResponseError
                  end)) as ->.
    { subst run.
      rewrite (CommandFacts.cmd_create_page_resolved _ _ _ _ _ _ Htok Hres).
      unfold NotionClient.load_template.
      destruct template_name as [|c n]; [done|].
      cbn [truthy default from_option id].
      rewrite Hf. cbn -[PyDict.set remote].
      rewrite CommandFacts.remote_object, CommandFacts.mem_set_ne by done.
      destruct (PyDict.mem "self" fields); [done|].
      cbn -[PyDict.set]. by destruct (pages_create w _). }
    split; intros Hself; rewrite Hself.
    + exists (PyDict.set "parent" (JObject [("page_id", parent_id)]) fields).
      split; [|split].
      * cbn -[PyDict.set]. rewrite ResolverFacts.pages_forwarded_app, Hnone.
        by destruct (pages_create w _).
      * by rewrite DictFacts.get_set_eq.
      * intros k ??. by rewrite DictFacts.get_set_ne.
    + split; [|done]. cbn [fst].
      by rewrite ResolverFacts.pages_forwarded_app, Hnone.
Qed.

Lemma C7_witness :
  ∃ body,
    Spec.pages_forwarded
      (CreateProject.create_project_page Sample.here (JString "xyz") "Apollo"
         "project-page" "*").1 = [JObject body] ∧
    PyDict.wf body ∧
    PyDict.get "parent" body = Some (JObject [("page_id", JString "xyz")]) ∧
    PyDict.get "icon" body
      = Some (JObject [("type", JString "emoji"); ("emoji", JString "*")]) ∧
    PyDict.get "object" body = None ∧
    ∀ k, k ≠ "parent" → k ≠ "icon" → k ≠ "object" →
      PyDict.get k body
        = (λ v, CreateProject.replace_placeholders v
                  [("PROJECT_NAME", "Apollo"); ("DATE", "2024-01-15")])
            <$> PyDict.get k Sample.project_fields.
Proof.
  assert (PyDict.wf Sample.project_fields) as Hwf.
  { apply (bool_decide_unpack _). vm_compute. exact I. }
  destruct (C7_request_body_completion Sample.here "project-page"
              Sample.project_fields eq_refl Hwf) as [H _].
  destruct (H (JString "xyz") "Apollo" "*") as [Hbody _].
  exact (Hbody eq_refl).
Defined.

(** C7 as stated fails for [cmd_create_page]: with the sample template it
    forwards a body that has no [icon], still has its [object] field, and
    whose placeholders stand as they were loaded. *)
Lemma C7_counterexample :
  map Sample.digest
    (Spec.pages_forwarded
       (NotionClient.cmd_create_page Sample.here "project-db"
          (Some "project-page") None).1)
  = [(None,
      Some (JString "page"),
      Some (JArray [JString "{{PROJECT_NAME}} Launch";
                    JString "Started {{DATE}} by {{OTHER}}";
                    JNumber (NInt 3); JBool true; JNull]))].
Proof. vm_compute. reflexivity. Qed.

(** ** The input of the substitution *)

(** C4: the substitution changes no object of the store, whether it
    returns or runs out of nested calls.  When its argument stands for a
    document, the argument stands for the same document after the call, the
    call returns, its result stands for the substituted document, and a
    list or dict it returns is a new object, not one of the input.  Every
    document that was loaded into the store is such an argument. *)
Theorem C4_substitute_leaves_input_unchanged (limit : nat) (h : PyHeap.heap)
    (obj : PyHeap.pyval) (r : dict string) :
  let run := PyHeap.replace_placeholders limit obj r h in
  (∀ l o, h !! l = Some o → run.2 !! l = Some o) ∧
  (∀ doc,
     PyHeap.reify limit h obj = Some doc →
     PyHeap.reify limit run.2 obj = Some doc ∧
     ∃ result,
       run.1 = Some result ∧
       PyHeap.reify limit run.2 result
         = Some (CreateProject.replace_placeholders doc r) ∧
       ∀ l, result = PyHeap.VRef l → h !! l = None) ∧
  (∀ doc h0,
     PyHeap.store doc h0 = (obj, h) →
     depth doc ≤ limit →
     PyHeap.reify limit h obj = Some doc).
Proof.
  intros run.
  pose proof (HeapFacts.replace_placeholders_frame limit obj r h) as Hframe.
  split; [|split].
  - intros l o Hl. by eapply lookup_weaken.
  - intros doc Hdoc. split; [by eapply HeapFacts.reify_weaken|].
    destruct (HeapFacts.replace_placeholders_refines limit r obj doc h Hdoc)
      as (result & Hres & Hreify).
    exists result. split; [done|]. split; [done|].
    intros l ->. by eapply HeapFacts.replace_placeholders_new_object.
  - intros doc h0 Hstore Hlimit.
    destruct (HeapFacts.store_well doc h0) as [_ Hread].
    rewrite Hstore in Hread. by eapply HeapFacts.reify_more_calls.
Qed.

Lemma C4_witness :
  let '(template, h) := PyHeap.store Sample.project_page ∅ in
  let run := PyHeap.replace_placeholders 10 template Sample.replacements h in
  PyHeap.reify 10 run.2 template = Some Sample.project_page ∧
  ∃ result,
    run.1 = Some result ∧
    PyHeap.reify 10 run.2 result
      = Some (CreateProject.replace_placeholders Sample.project_page
                Sample.replacements) ∧
    ∀ l, result = PyHeap.VRef l → h !! l = None.
Proof.
  destruct (PyHeap.store Sample.project_page ∅) as [template h] eqn:Hstore.
  destruct (C4_substitute_leaves_input_unchanged 10 h template Sample.replacements)
    as (_ & Hdoc & Hstored).
  apply Hdoc. apply (Hstored Sample.project_page ∅ Hstore).
  vm_compute. lia.
Defined.

Example C4_on_the_sample :
  let '(template, h) := PyHeap.store Sample.project_page ∅ in
  let run := PyHeap.replace_placeholders 10 template
               [("PROJECT_NAME", "Apollo"); ("DATE", "2024-01-15")] h in
  PyHeap.reify 10 run.2 template = Some Sample.project_page ∧
  (run.1 ≫= PyHeap.reify 10 run.2)
    = Some (CreateProject.replace_placeholders Sample.project_page
              [("PROJECT_NAME", "Apollo"); ("DATE", "2024-01-15")]).
Proof. vm_compute. split; reflexivity. Qed.

(* ===================================================================== *)
(** * The scenarios of the specification, run on the model *)
(* ===================================================================== *)

Example replace_strips_dashes : PyStr.replace "a-b--c" "-" "" = "abc".
Proof. reflexivity. Qed.

Example replace_empty_pattern : PyStr.replace "abc" "" "-" = "-a-b-c-".
Proof. reflexivity. Qed.

Example replace_does_not_overlap : PyStr.replace "aaa" "aa" "b" = "ba".
Proof. reflexivity. Qed.

Example scenario_launch :
  CreateProject.replace_placeholders
    (JArray [JString "{{PROJECT_NAME}} Launch"; JString "{{OTHER}}"])
    [("PROJECT_NAME", "Foo")]
  = JArray [JString "Foo Launch"; JString "{{OTHER}}"].
Proof. reflexivity. Qed.

Example scenario_apollo :
  CreateProject.replace_placeholders
    (JObject [("properties",
       JObject [("title",
         JObject [("title",
           JArray [JObject [("text",
             JObject [("content", JString "{{PROJECT_NAME}}")])]])])])])
    [("PROJECT_NAME", "Apollo")]
  = JObject [("properties",
       JObject [("title",
         JObject [("title",
           JArray [JObject [("text",
             JObject [("content", JString "Apollo")])]])])])].
Proof. reflexivity. Qed.

Example scenario_raw_identifier :
  NotionClient.resolve_target Sample.here Sample.raw_id
    = ([], Return (JString "a1b2c3d4-e5f6-7890-abcd-ef1234567890")).
Proof. reflexivity. Qed.

Example scenario_project_db :
  (NotionClient.resolve_target Sample.here "project-db").2 = Return (JString "xyz").
Proof. reflexivity. Qed.

Example scenario_missing_target :
  NotionClient.resolve_target
    (Sample.with_config (Parsed (JObject [("targets", JObject [])])))
    "missing-target"
  = ([EvExists "/repo/notion-config.json" true;
      EvLoad "/repo/notion-config.json";
      EvStderr "Error: Target 'missing-target' not found in notion-config.json";
      EvStderr "Available targets: "],
     SysExit 1).
Proof. reflexivity. Qed.

Example scenario_key_order_matters :
  CreateProject.replace_placeholders (JString "{{A}}") [("B", "y"); ("A", "{{B}}")]
    = JString "{{B}}".
Proof. reflexivity. Qed.

Example scenario_create_project_page :
  map Sample.digest
    (Spec.pages_forwarded
       (CreateProject.create_project_page Sample.here (JString "xyz") "Apollo"
          "project-page" "*").1)
  = [(Some (JObject [("type", JString "emoji"); ("emoji", JString "*")]),
      None,
      Some (JArray [JString "Apollo Launch";
                    JString "Started 2024-01-15 by {{OTHER}}";
                    JNumber (NInt 3); JBool true; JNull]))].
Proof. vm_compute. reflexivity. Qed.

(** A template with a top-level key [self] cannot be passed as keywords:
    the three entry points stop after reading it. *)
Example scenario_self_key :
  CreateProject.create_project_page SampleSelf.there (JString "xyz") "Apollo"
    "project-page" "*"
    = ([EvExists "/repo/templates/project-page.json" true;
        EvLoad "/repo/templates/project-page.json"],
       Raise TypeError) ∧
  NotionClient.cmd_create_page SampleSelf.there "project-db" (Some "project-page") None
    = ([EvExists "/repo/notion-config.json" true;
        EvLoad "/repo/notion-config.json";
        EvExists "/repo/templates/project-page.json" true;
        EvLoad "/repo/templates/project-page.json"],
       Raise TypeError) ∧
  NotionClient.cmd_create_db SampleSelf.there "project-db" (Some "project-page") None
    = ([EvExists "/repo/notion-config.json" true;
        EvLoad "/repo/notion-config.json";
        EvExists "/repo/templates/project-page.json" true;
        EvLoad "/repo/templates/project-page.json"],
       Raise TypeError).
Proof. vm_compute. repeat split. Qed.

(* ===================================================================== *)
(** * Further properties of the scripts *)
(* ===================================================================== *)

(** ** The resolver *)

(** X1: whatever [resolve_target] returns is either the name itself, for
    a name of the raw shape and without any file access, or the [id] that
    the configuration holds under [targets] for that name.  It returns
    nothing else. *)
Theorem resolve_target_returns_only_known_ids (w : world) (name : string)
    (t : list event) (v : json) :
  NotionClient.resolve_target w name = (t, Return v) ∨
  CreateProject.resolve_target w name = (t, Return v) →
  (Spec.hex32_shape name ∧ t = [] ∧ v = JString name) ∨
  (¬ Spec.hex32_shape name ∧
   t = [EvExists (config_path w) true; EvLoad (config_path w)] ∧
   ∃ config targets entry,
     config_file w = Parsed (JObject config) ∧
     Spec.targets_of config = JObject targets ∧
     PyDict.get name targets = Some (JObject entry) ∧
     PyDict.get "id" entry = Some v).
Proof.
  rewrite ResolverFacts.resolve_target_same.
  intros [H|H]; by apply CommandFacts.resolve_target_returned.
Qed.

Lemma resolve_target_returns_only_known_ids_witness :
  (Spec.hex32_shape "inbox" ∧
   [EvExists "/repo/notion-config.json" true; EvLoad "/repo/notion-config.json"] = [] ∧
   JString "0f0e0d0c0b0a09080706050403020100" = JString "inbox") ∨
  (¬ Spec.hex32_shape "inbox" ∧
   [EvExists "/repo/notion-config.json" true; EvLoad "/repo/notion-config.json"]
     = [EvExists (config_path Sample.here) true; EvLoad (config_path Sample.here)] ∧
   ∃ config targets entry,
     config_file Sample.here = Parsed (JObject config) ∧
     Spec.targets_of config = JObject targets ∧
     PyDict.get "inbox" targets = Some (JObject entry) ∧
     PyDict.get "id" entry = Some (JString "0f0e0d0c0b0a09080706050403020100")).
Proof.
  apply (resolve_target_returns_only_known_ids Sample.here "inbox").
  left. vm_compute. reflexivity.
Defined.

(** X2: past the shape test the resolver guards only two conditions, the
    missing file and the unknown name.  A configuration that does not
    parse, one that is not an object, an entry without [id] and an entry
    that is not an object each end the run with the exception Python
    raises at that point, after the file was opened and before anything is
    printed. *)
Theorem resolve_target_unguarded_failures (w : world) (name : string) :
  ¬ Spec.hex32_shape name →
  let opened := [EvExists (config_path w) true; EvLoad (config_path w)] in
  CreateProject.resolve_target w name = NotionClient.resolve_target w name ∧
  (config_file w = Malformed →
   NotionClient.resolve_target w name = (opened, Raise JSONDecodeError)) ∧
  (∀ j, config_file w = Parsed j → (∀ fields, j ≠ JObject fields) →
   NotionClient.resolve_target w name = (opened, Raise AttributeError)) ∧
  (∀ config targets entry,
     config_file w = Parsed (JObject config) →
     Spec.targets_of config = JObject targets →
     PyDict.get name targets = Some (JObject entry) →
     PyDict.get "id" entry = None →
     NotionClient.resolve_target w name = (opened, Raise KeyError)) ∧
  (∀ config targets v,
     config_file w = Parsed (JObject config) →
     Spec.targets_of config = JObject targets →
     PyDict.get name targets = Some v →
     (∀ entry, v ≠ JObject entry) →
     NotionClient.resolve_target w name = (opened, Raise TypeError)).
Proof.
  intros H opened. split; [apply ResolverFacts.resolve_target_same|].
  apply ResolverFacts.is_raw_id_false in H.
  unfold NotionClient.resolve_target, NotionClient.load_config. rewrite H.
  split; [|split; [|split]].
  - by intros ->.
  - intros j -> Hj. destruct j as [| | | | |fields]; try done. by destruct (Hj fields).
  - intros config targets entry -> Ht Hn Hid. unfold Spec.targets_of in Ht.
    cbn -[PyDict.get]. rewrite Ht. cbn -[PyDict.get].
    unfold PyDict.mem. rewrite Hn. cbn -[PyDict.get]. by rewrite Hid.
  - intros config targets v -> Ht Hn Hv. unfold Spec.targets_of in Ht.
    cbn -[PyDict.get]. rewrite Ht. cbn -[PyDict.get].
    unfold PyDict.mem. rewrite Hn. cbn -[PyDict.get].
    destruct v as [| | | | |entry]; try done. by destruct (Hv entry).
Qed.

Lemma resolve_target_unguarded_failures_witness :
  NotionClient.resolve_target
    (Sample.with_config
       (Parsed (JObject [("targets", JObject [("draft", JObject [("name", JString "Draft")])])])))
    "draft"
  = ([EvExists "/repo/notion-config.json" true; EvLoad "/repo/notion-config.json"],
     Raise KeyError).
Proof.
  refine (proj1 (proj2 (proj2 (proj2
    (resolve_target_unguarded_failures
       (Sample.with_config
          (Parsed (JObject [("targets",
             JObject [("draft", JObject [("name", JString "Draft")])])])))
       "draft" _))))
    [("targets", JObject [("draft", JObject [("name", JString "Draft")])])]
    [("draft", JObject [("name", JString "Draft")])]
    [("name", JString "Draft")] eq_refl eq_refl eq_refl eq_refl).
  intros [H _]. vm_compute in H. discriminate H.
Defined.

(** X3: the shape test strips every dash before it counts, so it does
    not look at where the dashes stand or how many there are: a name of
    the raw shape stays one when a dash is put in anywhere, and is
    returned with that dash. *)
Theorem dash_placement_is_not_checked (w : world) (a b : string) :
  Spec.hex32_shape (a +:+ b) →
  NotionClient.resolve_target w (a +:+ "-" +:+ b)
    = ([], Return (JString (a +:+ "-" +:+ b))) ∧
  CreateProject.resolve_target w (a +:+ "-" +:+ b)
    = ([], Return (JString (a +:+ "-" +:+ b))).
Proof.
  intros H. rewrite ResolverFacts.resolve_target_same.
  split; by apply ResolverFacts.resolve_raw, CommandFacts.hex32_shape_insert.
Qed.

Lemma dash_placement_is_not_checked_witness :
  NotionClient.resolve_target Sample.here
    ("a1b2c3d4e5f6" +:+ "-" +:+ "7890abcdef1234567890")
    = ([], Return (JString ("a1b2c3d4e5f6" +:+ "-" +:+ "7890abcdef1234567890"))) ∧
  CreateProject.resolve_target Sample.here
    ("a1b2c3d4e5f6" +:+ "-" +:+ "7890abcdef1234567890")
    = ([], Return (JString ("a1b2c3d4e5f6" +:+ "-" +:+ "7890abcdef1234567890"))).
Proof.
  apply (dash_placement_is_not_checked Sample.here
           "a1b2c3d4e5f6" "7890abcdef1234567890").
  apply ResolverFacts.is_raw_id_spec. vm_compute. reflexivity.
Defined.

(** X4: the shape test is case sensitive and admits nothing but [0-9],
    [a-f] and the dash.  A name that holds any other character, an
    upper-case hexadecimal digit included, is never taken for a raw
    identifier: the resolver goes to the configuration for it. *)
Theorem foreign_character_forces_lookup (w : world) (name : string) (c : ascii) :
  c ∈ Spec.chars name →
  c ≠ "-"%char →
  ¬ Spec.lowercase_hex c →
  let found := match config_file w with Absent => false | _ => true end in
  (∃ rest, (NotionClient.resolve_target w name).1
             = EvExists (config_path w) found :: rest) ∧
  (∃ rest, (CreateProject.resolve_target w name).1
             = EvExists (config_path w) found :: rest).
Proof.
  intros Hin Hdash Hhex found. rewrite ResolverFacts.resolve_target_same.
  split; eapply CommandFacts.resolve_target_probes,
    CommandFacts.foreign_char_not_raw; eauto.
Qed.

Lemma foreign_character_forces_lookup_witness :
  (∃ rest, (NotionClient.resolve_target Sample.here
              "A1B2C3D4E5F67890ABCDEF1234567890").1
             = EvExists "/repo/notion-config.json" true :: rest) ∧
  (∃ rest, (CreateProject.resolve_target Sample.here
              "A1B2C3D4E5F67890ABCDEF1234567890").1
             = EvExists "/repo/notion-config.json" true :: rest).
Proof.
  apply (foreign_character_forces_lookup Sample.here
           "A1B2C3D4E5F67890ABCDEF1234567890" "A").
  - apply (bool_decide_unpack _). vm_compute. exact I.
  - discriminate.
  - unfold Spec.lowercase_hex. cbn. lia.
Defined.

(** ** The template file and the create commands *)

(** X5: [create_project_page] forwards nothing unless the template file
    holds a JSON object.  A missing file ends the run with the
    template-not-found report and status 1; a file that does not parse ends
    it with the decoder's exception; a template that is a list, a string, a
    number, a boolean or null passes the substitution and then fails at
    [body["parent"] = ...] with a type error. *)
Theorem create_project_page_unusable_template (w : world) (parent_id : json)
    (project_name template_name icon : string) :
  let path := template_path w template_name in
  let run := CreateProject.create_project_page w parent_id project_name
               template_name icon in
  (template_file w template_name = Absent →
   run = ([EvExists path false;
           EvStderr ("Error: Template '" +:+ template_name +:+ "' not found at "
                     +:+ path)],
          SysExit 1)) ∧
  (template_file w template_name = Malformed →
   run = ([EvExists path true; EvLoad path], Raise JSONDecodeError)) ∧
  (∀ j, template_file w template_name = Parsed j →
        (∀ fields, j ≠ JObject fields) →
        run = ([EvExists path true; EvLoad path], Raise TypeError)) ∧
  ((∀ fields, template_file w template_name ≠ Parsed (JObject fields)) →
   Spec.pages_forwarded run.1 = []).
Proof.
  intros path run. subst path run.
  unfold CreateProject.create_project_page, CreateProject.load_template.
  split; [|split; [|split]].
  - by intros ->.
  - by intros ->.
  - intros j -> Hj. destruct j as [| | | | |fields]; try done. by destruct (Hj fields).
  - intros Hno. destruct (template_file w template_name) as [| |j]; [done..|].
    destruct j as [| | | | |fields]; try done. by destruct (Hno fields).
Qed.

Lemma create_project_page_unusable_template_witness :
  CreateProject.create_project_page Sample.here (JString "xyz") "Apollo" "nowhere" "*"
  = ([EvExists "/repo/templates/nowhere.json" false;
      EvStderr "Error: Template 'nowhere' not found at /repo/templates/nowhere.json"],
     SysExit 1).
Proof.
  exact (proj1 (create_project_page_unusable_template Sample.here (JString "xyz")
                  "Apollo" "nowhere" "*") eq_refl).
Defined.

(** X6: [cmd_create_page] and [cmd_create_db] send nothing unless the
    named template holds a JSON object.  Once the token is there and the
    target resolved, a missing template ends either command with the
    template-not-found report and status 1, a template that does not parse
    with the decoder's exception, and a template that is not an object with
    a type error at [body["parent"] = ...]; the events of the resolver are
    followed only by the probe and the read of the template. *)
Theorem create_commands_unusable_template (w : world) (target name : string)
    (title : option string) (t : list event) (parent_id : json) :
  truthy (notion_api_token w) = true →
  name ≠ "" →
  NotionClient.resolve_target w target = (t, Return parent_id) →
  let path := template_path w name in
  let page := NotionClient.cmd_create_page w target (Some name) title in
  let db := NotionClient.cmd_create_db w target (Some name) title in
  let report := "Error: Template '" +:+ name +:+ "' not found at " +:+ path in
  (template_file w name = Absent →
   page = (t ++ [EvExists path false; EvStderr report], SysExit 1) ∧
   db = (t ++ [EvExists path false; EvStderr report], SysExit 1)) ∧
  (template_file w name = Malformed →
   page = (t ++ [EvExists path true; EvLoad path], Raise JSONDecodeError) ∧
   db = (t ++ [EvExists path true; EvLoad path], Raise JSONDecodeError)) ∧
  (∀ j, template_file w name = Parsed j →
        (∀ fields, j ≠ JObject fields) →
        page = (t ++ [EvExists path true; EvLoad path], Raise TypeError) ∧
        db = (t ++ [EvExists path true; EvLoad path], Raise TypeError)).
Proof.
  intros Htok Hname Hres path page db report. subst path page db report.
  rewrite (CommandFacts.cmd_create_page_resolved _ _ _ _ _ _ Htok Hres).
  rewrite (CommandFacts.cmd_create_db_resolved _ _ _ _ _ _ Htok Hres).
  destruct name as [|c name]; [done|].
  cbn [truthy default from_option id io_bind].
  unfold NotionClient.load_template.
  split; [|split].
  - by intros ->.
  - by intros ->.
  - intros j -> Hj. destruct j as [| | | | |fields]; try done. by destruct (Hj fields).
Qed.

Lemma create_commands_unusable_template_witness :
  NotionClient.cmd_create_page Sample.here "project-db" (Some "nowhere") None
    = ([EvExists "/repo/notion-config.json" true;
        EvLoad "/repo/notion-config.json";
        EvExists "/repo/templates/nowhere.json" false;
        EvStderr "Error: Template 'nowhere' not found at /repo/templates/nowhere.json"],
       SysExit 1) ∧
  NotionClient.cmd_create_db Sample.here "project-db" (Some "nowhere") None
    = ([EvExists "/repo/notion-config.json" true;
        EvLoad "/repo/notion-config.json";
        EvExists "/repo/templates/nowhere.json" false;
        EvStderr "Error: Template 'nowhere' not found at /repo/templates/nowhere.json"],
       SysExit 1).
Proof.
  refine (proj1 (create_commands_unusable_template Sample.here "project-db"
                   "nowhere" None _ _ eq_refl _ eq_refl) eq_refl).
  discriminate.
Defined.

(** X7: with a template that holds an object without a top-level key
    [self], [cmd_create_db] hands the service one body, through
    [databases.create] and not [pages.create]: the template as loaded,
    placeholders included, with [parent] set to the resolved identifier,
    without a top-level [object], and with every other top-level field
    unchanged.  With a top-level key [self] the body cannot be passed as
    keywords: the run ends in TypeError after the template was read, and
    nothing is handed to the service. *)
Theorem cmd_create_db_request_body (w : world) (target name : string)
    (title : option string) (t : list event) (parent_id : json)
    (fields : dict json) :
  truthy (notion_api_token w) = true →
  name ≠ "" →
  NotionClient.resolve_target w target = (t, Return parent_id) →
  template_file w name = Parsed (JObject fields) →
  PyDict.wf fields →
  let path := template_path w name in
  let run := NotionClient.cmd_create_db w target (Some name) title in
  (PyDict.mem "self" fields = false →
   ∃ body,
     Cli.databases_forwarded run.1 = [JObject body] ∧
     Spec.pages_forwarded run.1 = [] ∧
     PyDict.wf body ∧
     PyDict.get "parent" body = Some (JObject [("page_id", parent_id)]) ∧
     PyDict.get "object" body = None ∧
     ∀ k, k ≠ "parent" → k ≠ "object" → PyDict.get k body = PyDict.get k fields) ∧
  (PyDict.mem "self" fields = true →
   run = (t ++ [EvExists path true; EvLoad path], Raise TypeError) ∧
   Cli.databases_forwarded run.1 = [] ∧
   Spec.pages_forwarded run.1 = []).
Proof.
  intros Htok Hname Hres Hf Hwf path run. subst path run.
  rewrite (CommandFacts.cmd_create_db_resolved _ _ _ _ _ _ Htok Hres).
  destruct name as [|c name]; [done|].
  cbn [truthy default from_option id io_bind].
  unfold NotionClient.load_template. rewrite Hf.
  pose proof (ResolverFacts.resolve_target_forwards_nothing w target) as Hp.
  pose proof (CommandFacts.resolve_target_forwards_no_database w target) as Hd.
  rewrite Hres in Hp, Hd. cbn [fst] in Hp, Hd.
  cbn -[PyDict.pop PyDict.set remote].
  rewrite CommandFacts.remote_object.
  rewrite CommandFacts.mem_pop_ne, CommandFacts.mem_set_ne by done.
  split; intros Hself; rewrite Hself.
  - exists (PyDict.pop "object"
              (PyDict.set "parent" (JObject [("page_id", parent_id)]) fields)).
    split; [|split; [|split; [|split; [|split]]]].
    + destruct (databases_create w _);
        cbn -[PyDict.pop PyDict.set Cli.databases_forwarded];
        by rewrite CommandFacts.databases_forwarded_app, Hd.
    + destruct (databases_create w _);
        cbn -[PyDict.pop PyDict.set Spec.pages_forwarded];
        by rewrite ResolverFacts.pages_forwarded_app, Hp.
    + by apply DictFacts.wf_pop, DictFacts.wf_set.
    + rewrite DictFacts.get_pop_ne, DictFacts.get_set_eq; done.
    + by apply DictFacts.get_pop_eq, DictFacts.wf_set.
    + intros k ??. by rewrite DictFacts.get_pop_ne, DictFacts.get_set_ne.
  - cbn -[Cli.databases_forwarded Spec.pages_forwarded].
    split; [done|]. split.
    + by rewrite CommandFacts.databases_forwarded_app, Hd.
    + by rewrite ResolverFacts.pages_forwarded_app, Hp.
Qed.

Lemma cmd_create_db_request_body_witness :
  ∃ body,
    Cli.databases_forwarded
      (NotionClient.cmd_create_db Sample.here "project-db" (Some "project-page") None).1
      = [JObject body] ∧
    Spec.pages_forwarded
      (NotionClient.cmd_create_db Sample.here "project-db" (Some "project-page") None).1
      = [] ∧
    PyDict.wf body ∧
    PyDict.get "parent" body = Some (JObject [("page_id", JString "xyz")]) ∧
    PyDict.get "object" body = None ∧
    ∀ k, k ≠ "parent" → k ≠ "object" →
      PyDict.get k body = PyDict.get k Sample.project_fields.
Proof.
  refine (proj1 (cmd_create_db_request_body Sample.here "project-db" "project-page"
                   None _ _ Sample.project_fields eq_refl _ eq_refl eq_refl _)
            eq_refl).
  - discriminate.
  - apply (bool_decide_unpack _). vm_compute. exact I.
Defined.

(** X8: when a template is named, [--title] has no effect on
    [create-page] or [create-db], whatever else happens in the run. *)
Theorem title_is_ignored_with_a_template (w : world) (target : string)
    (template title1 title2 : option string) :
  truthy template = true →
  NotionClient.cmd_create_page w target template title1
    = NotionClient.cmd_create_page w target template title2 ∧
  NotionClient.cmd_create_db w target template title1
    = NotionClient.cmd_create_db w target template title2.
Proof.
  intros Ht. unfold NotionClient.cmd_create_page, NotionClient.cmd_create_db.
  by rewrite Ht.
Qed.

Lemma title_is_ignored_with_a_template_witness :
  NotionClient.cmd_create_page Sample.here "project-db" (Some "project-page") (Some "One")
    = NotionClient.cmd_create_page Sample.here "project-db" (Some "project-page") None ∧
  NotionClient.cmd_create_db Sample.here "project-db" (Some "project-page") (Some "One")
    = NotionClient.cmd_create_db Sample.here "project-db" (Some "project-page") None.
Proof.
  exact (title_is_ignored_with_a_template Sample.here "project-db"
           (Some "project-page") (Some "One") None eq_refl).
Defined.

(** X9: without a template (none given, or an empty name) the two
    create commands read no template file and send the built-in body with
    [parent] added last.  The title sent is the given title, or [Untitled]
    (for a database [Untitled Database]) when none or an empty one was
    given. *)
Theorem create_commands_without_template (w : world) (target : string)
    (template title : option string) (t : list event) (parent_id : json) :
  truthy (notion_api_token w) = true →
  truthy template = false →
  NotionClient.resolve_target w target = (t, Return parent_id) →
  let shown := λ fallback, if truthy title then default "" title else fallback in
  let text := λ content,
    JArray [JObject [("type", JString "text");
                     ("text", JObject [("content", JString content)])]] in
  let page := NotionClient.cmd_create_page w target template title in
  let db := NotionClient.cmd_create_db w target template title in
  Spec.pages_forwarded page.1
    = [JObject [("properties", JObject [("title", JObject [("title", text (shown "Untitled"))])]);
                ("children", JArray []);
                ("parent", JObject [("page_id", parent_id)])]] ∧
  Cli.databases_forwarded db.1
    = [JObject [("title", text (shown "Untitled Database"));
                ("properties", JObject [("Name", JObject [("title", JObject [])])]);
                ("parent", JObject [("page_id", parent_id)])]] ∧
  Cli.file_accesses page.1 = Cli.file_accesses t ∧
  Cli.file_accesses db.1 = Cli.file_accesses t.
Proof.
  intros Htok Htmpl Hres shown text page db. subst shown text page db.
  rewrite (CommandFacts.cmd_create_page_resolved _ _ _ _ _ _ Htok Hres).
  rewrite (CommandFacts.cmd_create_db_resolved _ _ _ _ _ _ Htok Hres).
  rewrite Htmpl.
  pose proof (ResolverFacts.resolve_target_forwards_nothing w target) as Hp.
  pose proof (CommandFacts.resolve_target_forwards_no_database w target) as Hd.
  rewrite Hres in Hp, Hd. cbn [fst] in Hp, Hd.
  assert (NotionClient.default_page_body title
          = JObject [("properties", JObject [("title", JObject [("title",
               JArray [JObject [("type", JString "text");
                 ("text", JObject [("content",
                    JString (if truthy title then default "" title else "Untitled"))])]])])]);
             ("children", JArray [])]) as ->.
  { by destruct title as [[|c s]|]. }
  assert (NotionClient.default_db_body title
          = JObject [("title",
               JArray [JObject [("type", JString "text");
                 ("text", JObject [("content",
                    JString (if truthy title then default "" title
                             else "Untitled Database"))])]]);
             ("properties", JObject [("Name", JObject [("title", JObject [])])])]) as ->.
  { by destruct title as [[|c s]|]. }
  cbn. destruct (pages_create w _), (databases_create w _); cbn;
    rewrite ?ResolverFacts.pages_forwarded_app, ?CommandFacts.databases_forwarded_app,
      ?Hp, ?Hd, ?List.filter_app; cbn; rewrite ?app_nil_r; done.
Qed.

Lemma create_commands_without_template_witness :
  Spec.pages_forwarded
    (NotionClient.cmd_create_page Sample.here "project-db" None (Some "")).1
    = [JObject [("properties", JObject [("title", JObject [("title",
          JArray [JObject [("type", JString "text");
                           ("text", JObject [("content", JString "Untitled")])]])])]);
                ("children", JArray []);
                ("parent", JObject [("page_id", JString "xyz")])]].
Proof.
  exact (proj1 (create_commands_without_template Sample.here "project-db" None
                  (Some "") _ _ eq_refl eq_refl eq_refl)).
Defined.

(** ** The subcommands and the entry point *)

(** X10: every subcommand, and [main] of create_project.py, checks the
    token before anything else.  Without a token, or with an empty one, the
    run is one line on standard error and exit status 1: no file is probed,
    no argument is parsed, nothing is printed to standard output and the
    service is not called. *)
Theorem missing_token_stops_every_command (e : Cli.setting) (w : world) :
  truthy (notion_api_token w) = false →
  let report := "Error: NOTION_API_TOKEN is not set. See .env.example." in
  (∀ target template title,
     NotionClient.cmd_create_page w target template title
       = ([EvStderr report], SysExit 1)) ∧
  (∀ target template title,
     NotionClient.cmd_create_db w target template title
       = ([EvStderr report], SysExit 1)) ∧
  (∀ target properties,
     Cli.cmd_update_page e w target properties
       = ([Cli.Did (EvStderr report)], SysExit 1)) ∧
  (∀ target filter sorts,
     Cli.cmd_query_db e w target filter sorts
       = ([Cli.Did (EvStderr report)], SysExit 1)) ∧
  (∀ target blocks,
     Cli.cmd_append_blocks e w target blocks
       = ([Cli.Did (EvStderr report)], SysExit 1)) ∧
  (∀ target,
     Cli.cmd_get_page e w target = ([Cli.Did (EvStderr report)], SysExit 1)) ∧
  (∀ name parent template icon,
     Cli.main e w name parent template icon
       = ([Cli.Did (EvStderr report)], SysExit 1)).
Proof.
  intros Htok report.
  unfold NotionClient.cmd_create_page, NotionClient.cmd_create_db,
    Cli.cmd_update_page, Cli.cmd_query_db, Cli.cmd_append_blocks,
    Cli.cmd_get_page, Cli.main, NotionClient.get_client, CreateProject.get_client.
  rewrite Htok. repeat split.
Qed.

Lemma missing_token_stops_every_command_witness :
  Cli.cmd_get_page SampleCli.desk SampleCli.keyless "project-db"
    = ([Cli.Did (EvStderr "Error: NOTION_API_TOKEN is not set. See .env.example.")],
       SysExit 1) ∧
  Cli.main SampleCli.desk SampleCli.keyless "Apollo" "project-db" "project-page" "*"
    = ([Cli.Did (EvStderr "Error: NOTION_API_TOKEN is not set. See .env.example.")],
       SysExit 1).
Proof.
  pose proof (missing_token_stops_every_command SampleCli.desk SampleCli.keyless
                eq_refl) as (_ & _ & _ & _ & _ & Hget & Hmain).
  split; [apply Hget|apply Hmain].
Defined.

(** X11: the target is resolved before any other input is looked at.
    When [resolve_target] does not return, every subcommand and [main] end
    the way the resolver ended, exit status or exception, having done
    nothing but what the resolver did: no template is read, no JSON
    argument parsed, no line printed to standard output, no request
    sent. *)
Theorem failed_resolution_stops_every_command (e : Cli.setting) (w : world)
    (target : string)
    (t : list event) (o : outcome json) :
  truthy (notion_api_token w) = true →
  NotionClient.resolve_target w target = (t, o) →
  is_Some (Cli.failure (B:=unit) o) →
  let same_end := λ A (run : list event * outcome A),
    run.1 = t ∧ Cli.failure (B:=unit) run.2 = Cli.failure o in
  let same_end' := λ A (run : Cli.run A),
    run.1 = Cli.Did <$> t ∧ Cli.failure (B:=unit) run.2 = Cli.failure o in
  (∀ template title,
     same_end _ (NotionClient.cmd_create_page w target template title)) ∧
  (∀ template title,
     same_end _ (NotionClient.cmd_create_db w target template title)) ∧
  (∀ properties, same_end' _ (Cli.cmd_update_page e w target properties)) ∧
  (∀ filter sorts, same_end' _ (Cli.cmd_query_db e w target filter sorts)) ∧
  (∀ blocks, same_end' _ (Cli.cmd_append_blocks e w target blocks)) ∧
  same_end' _ (Cli.cmd_get_page e w target) ∧
  (∀ name template icon, same_end' _ (Cli.main e w name target template icon)).
Proof.
  intros Htok Hres Hfail same_end same_end'. subst same_end same_end'.
  unfold NotionClient.cmd_create_page, NotionClient.cmd_create_db,
    Cli.cmd_update_page, Cli.cmd_query_db, Cli.cmd_append_blocks,
    Cli.cmd_get_page, Cli.main, NotionClient.get_client, CreateProject.get_client.
  rewrite Htok, ResolverFacts.resolve_target_same, Hres.
  destruct o as [v|c|x]; [by destruct Hfail|..]; cbn; rewrite ?app_nil_r;
    repeat split.
Qed.

Lemma failed_resolution_stops_every_command_witness :
  (Cli.cmd_update_page SampleCli.desk Sample.here "missing-target" "{}").1
    = Cli.Did <$> (Spec.UnknownTargetError Sample.here "missing-target"
                     ["project-db"; "inbox"]).1 ∧
  Cli.failure (B:=unit)
    (Cli.cmd_update_page SampleCli.desk Sample.here "missing-target" "{}").2
    = Some (SysExit 1).
Proof.
  pose proof (failed_resolution_stops_every_command SampleCli.desk Sample.here
                "missing-target" _ _ eq_refl eq_refl
                (ex_intro _ (SysExit 1) eq_refl)) as (_ & _ & Hupdate & _).
  exact (Hupdate "{}").
Defined.

(** X12: a JSON argument that [json.loads] rejects ends [update-page],
    [append-blocks] and [query-db] with the decoder's exception after the
    target was resolved and before any request.  For [query-db] this holds
    for a non-empty [--filter] whatever [--sorts] is, and for a non-empty
    [--sorts] when the filter is absent, empty or well-formed. *)
Theorem malformed_argument_sends_nothing (e : Cli.setting) (w : world)
    (target text : string) (t : list event) (id : json) :
  truthy (notion_api_token w) = true →
  NotionClient.resolve_target w target = (t, Return id) →
  Cli.json_loads e text = None →
  Cli.cmd_update_page e w target text = (Cli.Did <$> t, Raise JSONDecodeError) ∧
  Cli.cmd_append_blocks e w target text = (Cli.Did <$> t, Raise JSONDecodeError) ∧
  (text ≠ "" →
   (∀ sorts,
      Cli.cmd_query_db e w target (Some text) sorts
        = (Cli.Did <$> t, Raise JSONDecodeError)) ∧
   (∀ filter,
      (truthy filter = true → is_Some (Cli.json_loads e (default "" filter))) →
      Cli.cmd_query_db e w target filter (Some text)
        = (Cli.Did <$> t, Raise JSONDecodeError))).
Proof.
  intros Htok Hres Hbad.
  unfold Cli.cmd_update_page, Cli.cmd_append_blocks, Cli.cmd_query_db,
    NotionClient.get_client, Cli.loads.
  rewrite Htok, Hres. cbn. rewrite Hbad, !app_nil_r.
  split; [done|]. split; [done|].
  intros Htext. destruct text as [|c text]; [done|].
  cbn. rewrite ?Hbad, ?app_nil_r. split; [done|].
  intros filter Hfilter. destruct (truthy filter); cbn.
  - destruct (Hfilter eq_refl) as [f ->]. cbn. by rewrite app_nil_r.
  - by rewrite app_nil_r.
Qed.

Lemma malformed_argument_sends_nothing_witness :
  Cli.cmd_update_page SampleCli.desk Sample.here "project-db" "{oops"
    = (Cli.Did <$> [EvExists "/repo/notion-config.json" true;
                    EvLoad "/repo/notion-config.json"],
       Raise JSONDecodeError).
Proof.
  exact (proj1 (malformed_argument_sends_nothing SampleCli.desk Sample.here
                  "project-db" "{oops" _ _ eq_refl eq_refl eq_refl)).
Defined.

(** X13: [query-db] sends one request.  Its keywords are [database_id],
    the resolved identifier, followed by [filter] and [sorts], each present
    exactly when the option was given with a non-empty text; an empty text
    counts as not given and is not parsed. *)
Theorem query_sends_only_what_was_given (e : Cli.setting) (w : world)
    (target : string) (filter sorts : option string)
    (t : list event) (id : json) :
  truthy (notion_api_token w) = true →
  NotionClient.resolve_target w target = (t, Return id) →
  (truthy filter = true → is_Some (Cli.json_loads e (default "" filter))) →
  (truthy sorts = true → is_Some (Cli.json_loads e (default "" sorts))) →
  let given := λ key x,
    if truthy x
    then match Cli.json_loads e (default "" x) with
         | Some parsed => [(key, parsed)]
         | None => []
         end
    else [] in
  Cli.requests (Cli.cmd_query_db e w target filter sorts).1
    = [Cli.DatabasesQuery
         ([("database_id", id)] ++ given "filter" filter ++ given "sorts" sorts)].
Proof.
  intros Htok Hres Hfilter Hsorts given. subst given.
  unfold Cli.cmd_query_db, NotionClient.get_client, Cli.loads, Cli.ask.
  rewrite Htok, Hres. cbn -[PyDict.set].
  destruct (truthy filter).
  - destruct (Hfilter eq_refl) as [f ->]. cbn.
    destruct (truthy sorts).
    + destruct (Hsorts eq_refl) as [s ->]. cbn.
      destruct (Cli.answer e _); cbn; by rewrite !CommandFacts.requests_app, CommandFacts.requests_lift.
    + cbn. destruct (Cli.answer e _); cbn; by rewrite !CommandFacts.requests_app, CommandFacts.requests_lift.
  - cbn. destruct (truthy sorts).
    + destruct (Hsorts eq_refl) as [s ->]. cbn.
      destruct (Cli.answer e _); cbn; by rewrite !CommandFacts.requests_app, CommandFacts.requests_lift.
    + cbn. destruct (Cli.answer e _); cbn; by rewrite !CommandFacts.requests_app, CommandFacts.requests_lift.
Qed.

Lemma query_sends_only_what_was_given_witness :
  Cli.requests
    (Cli.cmd_query_db SampleCli.desk Sample.here "project-db" (Some "") (Some "[]")).1
    = [Cli.DatabasesQuery [("database_id", JString "xyz"); ("sorts", JArray [])]].
Proof.
  refine (query_sends_only_what_was_given SampleCli.desk Sample.here "project-db"
            (Some "") (Some "[]") _ _ eq_refl eq_refl _ _).
  - discriminate.
  - intros _. by eexists.
Defined.

(** X14: [update-page], [append-blocks] and [get-page] send exactly one
    request, which carries the resolved identifier and the parsed argument.
    The answer is printed when there is one; when the client raises, the
    run ends with that exception and nothing is printed or sent again. *)
Theorem one_request_with_the_resolved_id (e : Cli.setting) (w : world)
    (target text : string) (t : list event) (id payload : json) :
  truthy (notion_api_token w) = true →
  NotionClient.resolve_target w target = (t, Return id) →
  Cli.json_loads e text = Some payload →
  let after := λ r,
    ((Cli.Did <$> t) ++ Cli.Asked r ::
       match Cli.answer e r with
       | Some result => [Cli.Did (EvStdoutJson result)]
       | None => []
       end,
     match Cli.answer e r with
     | Some _ => Return ()
     | None => Raise APIResponseError
     end) in
  Cli.cmd_update_page e w target text = after (Cli.PagesUpdate id payload) ∧
  Cli.cmd_append_blocks e w target text = after (Cli.BlocksChildrenAppend id payload) ∧
  Cli.cmd_get_page e w target = after (Cli.PagesRetrieve id).
Proof.
  intros Htok Hres Hload after. subst after.
  unfold Cli.cmd_update_page, Cli.cmd_append_blocks, Cli.cmd_get_page,
    NotionClient.get_client, Cli.loads, Cli.ask.
  rewrite Htok, Hres, Hload. cbn.
  repeat split; by destruct (Cli.answer e _).
Qed.

Lemma one_request_with_the_resolved_id_witness :
  Cli.cmd_get_page SampleCli.desk Sample.here "project-db"
    = ((Cli.Did <$> [EvExists "/repo/notion-config.json" true;
                     EvLoad "/repo/notion-config.json"]) ++
       [Cli.Asked (Cli.PagesRetrieve (JString "xyz"));
        Cli.Did (EvStdoutJson (JObject [("id", JString "page-1")]))],
       Return ()).
Proof.
  exact (proj2 (proj2 (one_request_with_the_resolved_id SampleCli.desk Sample.here
                         "project-db" "{}" _ _ _ eq_refl eq_refl eq_refl))).
Defined.

(** X15: with a target of the raw shape no subcommand needs the
    configuration: the four subcommands that send no template touch no file
    at all, and neither do [create-page] and [create-db] when no template is
    named. *)
Theorem raw_identifier_needs_no_file (e : Cli.setting) (w : world)
    (target : string) :
  truthy (notion_api_token w) = true →
  Spec.hex32_shape target →
  let untouched := λ A (run : Cli.run A),
    Cli.file_accesses (Cli.events run.1) = [] in
  (∀ properties, untouched _ (Cli.cmd_update_page e w target properties)) ∧
  (∀ filter sorts, untouched _ (Cli.cmd_query_db e w target filter sorts)) ∧
  (∀ blocks, untouched _ (Cli.cmd_append_blocks e w target blocks)) ∧
  untouched _ (Cli.cmd_get_page e w target) ∧
  (∀ title,
     Cli.file_accesses (NotionClient.cmd_create_page w target None title).1 = [] ∧
     Cli.file_accesses (NotionClient.cmd_create_db w target None title).1 = []).
Proof.
  intros Htok Hraw untouched. subst untouched.
  pose proof (ResolverFacts.resolve_raw w target Hraw) as Hres.
  unfold Cli.cmd_update_page, Cli.cmd_query_db, Cli.cmd_append_blocks,
    Cli.cmd_get_page, NotionClient.cmd_create_page, NotionClient.cmd_create_db,
    NotionClient.get_client, Cli.loads, Cli.ask.
  rewrite Htok, Hres. cbn -[PyDict.set].
  split; [|split; [|split; [|split]]].
  - intros properties. destruct (Cli.json_loads e properties); cbn; [|done].
    destruct (Cli.answer e _); reflexivity.
  - intros filter sorts.
    destruct (truthy filter), (truthy sorts); cbn -[PyDict.set];
      repeat match goal with
             | |- context [Cli.json_loads e ?x] =>
                 destruct (Cli.json_loads e x); cbn -[PyDict.set]
             end;
      try reflexivity; destruct (Cli.answer e _); reflexivity.
  - intros blocks. destruct (Cli.json_loads e blocks); cbn; [|done].
    destruct (Cli.answer e _); reflexivity.
  - destruct (Cli.answer e _); reflexivity.
  - intros title. destruct (pages_create w _), (databases_create w _); split; reflexivity.
Qed.

Lemma raw_identifier_needs_no_file_witness :
  Cli.file_accesses
    (Cli.events (Cli.cmd_get_page SampleCli.desk Sample.here Sample.raw_id).1) = [].
Proof.
  refine (proj1 (proj2 (proj2 (proj2
    (raw_identifier_needs_no_file SampleCli.desk Sample.here Sample.raw_id
       eq_refl _))))).
  apply ResolverFacts.is_raw_id_spec. vm_compute. reflexivity.
Defined.

(** X16: [main] of create_project.py prints its five header lines once
    the parent is resolved and then creates the page.  If the creation does
    not return, the run ends the same way and prints no more.  If it
    returns an object with an [id], the three closing lines follow, the URL
    line being empty after its label when the answer has no [url].  If the
    answer has no [id] or is not an object, the run ends with a key or type
    error after the page was requested, without the closing lines. *)
Theorem main_reports_after_the_page_exists (e : Cli.setting) (w : world)
    (name parent template icon : string) (t created : list event)
    (parent_id : json) (ended : outcome json) :
  truthy (notion_api_token w) = true →
  CreateProject.resolve_target w parent = (t, Return parent_id) →
  CreateProject.create_project_page w parent_id name template icon
    = (created, ended) →
  let before :=
    (Cli.Did <$> t) ++
    [Cli.Printed ("Creating project page: " +:+ name);
     Cli.Printed ("  Parent: " +:+ parent +:+ " (" +:+ Cli.format e parent_id +:+ ")");
     Cli.Printed ("  Template: " +:+ template);
     Cli.Printed ("  Icon: " +:+ icon);
     Cli.Printed ""] ++
    (Cli.Did <$> created) in
  let run := Cli.main e w name parent template icon in
  (∀ failed, Cli.failure ended = Some failed → run = (before, failed)) ∧
  (∀ result page_id,
     ended = Return (JObject result) →
     PyDict.get "id" result = Some page_id →
     run = (before ++
            [Cli.Printed "Project page created!";
             Cli.Printed ("  ID:  " +:+ Cli.format e page_id);
             Cli.Printed ("  URL: " +:+
                Cli.format e (default (JString "") (PyDict.get "url" result)))],
            Return (JObject result))) ∧
  (∀ result,
     ended = Return (JObject result) →
     PyDict.get "id" result = None →
     run = (before, Raise KeyError)) ∧
  (∀ result,
     ended = Return result →
     (∀ fields, result ≠ JObject fields) →
     run = (before, Raise TypeError)).
Proof.
  intros Htok Hres Hcreated before run. subst before run.
  unfold Cli.main, CreateProject.get_client.
  rewrite Htok, Hres. cbn -[PyDict.get CreateProject.create_project_page].
  rewrite Hcreated.
  split; [|split; [|split]].
  - intros failed Hfailed.
    destruct ended as [v|c|x]; [done|..]; cbn in Hfailed;
      injection Hfailed as <-; cbn; by rewrite ?app_nil_r.
  - intros result page_id -> Hid. cbn -[PyDict.get]. rewrite Hid. cbn -[PyDict.get].
    by rewrite ?app_nil_r, <-?app_assoc.
  - intros result -> Hid. cbn -[PyDict.get]. rewrite Hid. cbn.
    by rewrite ?app_nil_r.
  - intros result -> Hno. destruct result as [| | | | |fields]; cbn;
      rewrite ?app_nil_r; try done. by destruct (Hno fields).
Qed.

Lemma main_reports_after_the_page_exists_witness :
  Cli.printed
    (Cli.main SampleCli.desk Sample.here "Apollo" "project-db" "project-page" "*").1
    = ["Creating project page: Apollo";
       "  Parent: project-db (xyz)";
       "  Template: project-page";
       "  Icon: *";
       "";
       "Project page created!";
       "  ID:  page-1";
       "  URL: https://example.invalid/page-1"].
Proof.
  pose proof (main_reports_after_the_page_exists SampleCli.desk Sample.here
                "Apollo" "project-db" "project-page" "*" _ _ _ _
                eq_refl eq_refl eq_refl) as (_ & Hok & _).
  rewrite (Hok _ (JString "page-1") eq_refl eq_refl). reflexivity.
Defined.

(** X17: from the command line to the request: for a friendly parent
    name that the configuration knows and a template that holds an object
    without a top-level key [self], [main] hands the service one body,
    whose [parent] is the [id] configured for that name, whose [icon] is
    the given emoji, which has no [object] field and whose other top-level
    fields are the substituted fields of the template, whatever the
    service answers.  With a top-level key [self] in the template the body
    cannot be passed as keywords: [main] ends in TypeError after its five
    header lines, and nothing is handed to the service. *)
Theorem main_creates_under_the_configured_parent (e : Cli.setting) (w : world)
    (name parent template icon : string)
    (config targets entry fields : dict json) (id : json) :
  truthy (notion_api_token w) = true →
  ¬ Spec.hex32_shape parent →
  config_file w = Parsed (JObject config) →
  Spec.targets_of config = JObject targets →
  PyDict.get parent targets = Some (JObject entry) →
  PyDict.get "id" entry = Some id →
  template_file w template = Parsed (JObject fields) →
  PyDict.wf fields →
  let run := Cli.main e w name parent template icon in
  (PyDict.mem "self" fields = false →
   ∃ body,
     Spec.pages_forwarded (Cli.events run.1) = [JObject body] ∧
     Cli.requests run.1 = [] ∧
     PyDict.get "parent" body = Some (JObject [("page_id", id)]) ∧
     PyDict.get "icon" body
       = Some (JObject [("type", JString "emoji"); ("emoji", JString icon)]) ∧
     PyDict.get "object" body = None ∧
     ∀ k, k ≠ "parent" → k ≠ "icon" → k ≠ "object" →
       PyDict.get k body
         = (λ v, CreateProject.replace_placeholders v
                   [("PROJECT_NAME", name); ("DATE", today w)])
             <$> PyDict.get k fields) ∧
  (PyDict.mem "self" fields = true →
   run.2 = Raise TypeError ∧
   Spec.pages_forwarded (Cli.events run.1) = [] ∧
   Cli.requests run.1 = [] ∧
   Cli.printed run.1
     = ["Creating project page: " +:+ name;
        "  Parent: " +:+ parent +:+ " (" +:+ Cli.format e id +:+ ")";
        "  Template: " +:+ template;
        "  Icon: " +:+ icon;
        ""]).
Proof.
  intros Htok Hshape Hconfig Htargets Hentry Hid Hf Hwf run.
  pose proof (ResolverFacts.resolve_known w parent config targets entry id
                Hshape Hconfig Htargets Hentry Hid) as Hres.
  rewrite <-ResolverFacts.resolve_target_same in Hres.
  pose proof (CommandFacts.create_project_page_run w id name template icon fields Hf) as Hrun.
  cbv zeta in Hrun.
  set (replacements := [("PROJECT_NAME", name); ("DATE", today w)]) in *.
  set (body := PyDict.pop "object" _) in Hrun.
  assert (PyDict.wf
            (map (λ kv, (kv.1, CreateProject.replace_placeholders kv.2 replacements))
               fields)) as Hwf'.
  { unfold PyDict.wf.
    by rewrite (DictFacts.keys_map
                  (λ v, CreateProject.replace_placeholders v replacements)). }
  subst run. unfold Cli.main, CreateProject.get_client.
  rewrite Htok, Hres. cbn -[PyDict.get CreateProject.create_project_page].
  rewrite Hrun.
  split; intros Hself; rewrite Hself; [|done].
  exists body. split; [|split; [|split; [|split; [|split]]]].
  - destruct (pages_create w (JObject body)) as [result|]; [|done].
    cbn -[PyDict.get]. destruct result as [| | | | |result]; try done.
    cbn -[PyDict.get]. by destruct (PyDict.get "id" result).
  - destruct (pages_create w (JObject body)) as [result|]; [|done].
    cbn -[PyDict.get]. destruct result as [| | | | |result]; try done.
    cbn -[PyDict.get]. by destruct (PyDict.get "id" result).
  - subst body.
    rewrite DictFacts.get_pop_ne, DictFacts.get_set_ne, DictFacts.get_set_eq; done.
  - subst body. rewrite DictFacts.get_pop_ne, DictFacts.get_set_eq; done.
  - subst body. apply DictFacts.get_pop_eq. by do 2 apply DictFacts.wf_set.
  - intros k ???. subst body.
    rewrite DictFacts.get_pop_ne, !DictFacts.get_set_ne by done.
    apply (DictFacts.get_map
             (λ v, CreateProject.replace_placeholders v replacements)).
Qed.

Lemma main_creates_under_the_configured_parent_witness :
  ∃ body,
    Spec.pages_forwarded
      (Cli.events
         (Cli.main SampleCli.desk Sample.here "Apollo" "project-db"
            "project-page" "*").1)
      = [JObject body] ∧
    Cli.requests
      (Cli.main SampleCli.desk Sample.here "Apollo" "project-db" "project-page" "*").1
      = [] ∧
    PyDict.get "parent" body = Some (JObject [("page_id", JString "xyz")]) ∧
    PyDict.get "icon" body
      = Some (JObject [("type", JString "emoji"); ("emoji", JString "*")]) ∧
    PyDict.get "object" body = None ∧
    ∀ k, k ≠ "parent" → k ≠ "icon" → k ≠ "object" →
      PyDict.get k body
        = (λ v, CreateProject.replace_placeholders v
                  [("PROJECT_NAME", "Apollo"); ("DATE", "2024-01-15")])
            <$> PyDict.get k Sample.project_fields.
Proof.
  refine (proj1 (main_creates_under_the_configured_parent SampleCli.desk Sample.here
            "Apollo" "project-db" "project-page" "*"
            Sample.config_fields Sample.targets _ Sample.project_fields _
            eq_refl _ eq_refl eq_refl eq_refl eq_refl eq_refl _) eq_refl).
  - intros [H _]. vm_compute in H. discriminate H.
  - apply (bool_decide_unpack _). vm_compute. exact I.
Defined.

(** ** The template engine and the store *)

(** X18: substituting with a replacement set is the same as substituting
    with its first entries and then, in the result, with the rest: the
    walk over the document can be split wherever the set is split. *)
Theorem replace_placeholders_in_two_steps (doc : json) (r1 r2 : dict string) :
  CreateProject.replace_placeholders doc (r1 ++ r2)
    = CreateProject.replace_placeholders
        (CreateProject.replace_placeholders doc r1) r2.
Proof. apply TemplateFacts.replace_placeholders_app. Qed.



(** X20: the steps of [create_project_page] between the copy and the
    request, on objects.  They change no object that existed before: the
    assignments and the [pop] work on the dict the substitution returned,
    which is a new one, so the template stays as it was loaded even if the
    substitution is given the template itself and not a copy.  When the
    value given stands for a template object, the object that results
    stands for the body that is sent: the substituted template with
    [parent] and [icon] set and without [object]. *)
Theorem body_is_built_on_a_new_object (limit : nat) (body parent_id : PyHeap.pyval)
    (project_name date icon : string) (h : PyHeap.heap) :
  let run := PyBody.create_project_page_body limit body parent_id
               project_name date icon h in
  (∀ l o, h !! l = Some o → run.2 !! l = Some o) ∧
  (∀ m fields pid,
     PyHeap.reify limit h body = Some (JObject fields) →
     PyHeap.reify m h parent_id = Some pid →
     PyHeap.reify limit run.2 body = Some (JObject fields) ∧
     ∃ result,
       run.1 = Some result ∧
       PyHeap.reify (limit + m + 2) run.2 result
       = Some (JObject
           (PyDict.pop "object"
              (PyDict.set "icon"
                 (JObject [("type", JString "emoji"); ("emoji", JString icon)])
                 (PyDict.set "parent" (JObject [("page_id", pid)])
                    (map (λ kv, (kv.1, CreateProject.replace_placeholders kv.2
                                         [("PROJECT_NAME", project_name);
                                          ("DATE", date)])) fields)))))).
Proof.
  intros run.
  pose proof (BodyFacts.create_project_page_body_frame limit body parent_id
                project_name date icon h) as Hframe.
  split.
  - intros l o Hl. by eapply lookup_weaken.
  - intros m fields pid Hbody Hpid. split; [by eapply HeapFacts.reify_weaken|].
    by apply BodyFacts.create_project_page_body_refines.
Qed.

Lemma body_is_built_on_a_new_object_witness :
  let '(template, h) := PyHeap.store Sample.project_page ∅ in
  let run := PyBody.create_project_page_body 10 template (PyHeap.VStr "xyz")
               "Apollo" "2024-01-15" "*" h in
  PyHeap.reify 10 run.2 template = Some Sample.project_page ∧
  ∃ result,
    run.1 = Some result ∧
    PyHeap.reify (10 + 1 + 2) run.2 result
    = Some (JObject
        (PyDict.pop "object"
           (PyDict.set "icon"
              (JObject [("type", JString "emoji"); ("emoji", JString "*")])
              (PyDict.set "parent" (JObject [("page_id", JString "xyz")])
                 (map (λ kv, (kv.1, CreateProject.replace_placeholders kv.2
                                      [("PROJECT_NAME", "Apollo");
                                       ("DATE", "2024-01-15")]))
                    Sample.project_fields))))).
Proof.
  destruct (PyHeap.store Sample.project_page ∅) as [template h] eqn:Hstore.
  apply (proj2 (body_is_built_on_a_new_object 10 template (PyHeap.VStr "xyz")
                  "Apollo" "2024-01-15" "*" h) 1 Sample.project_fields
           (JString "xyz")).
  - injection Hstore as <- <-. vm_compute. reflexivity.
  - reflexivity.
Defined.

(** X21: a document none of whose strings holds two opening braces in a
    row comes back unchanged from the substitution, whatever the
    replacement set holds, keys with braces and values with tokens
    included. *)
Theorem text_without_double_brace_is_kept (doc : json) :
  (∀ s, s ∈ Spec.string_leaves doc → ¬ Spec.occurs "{{" s) →
  ∀ r, CreateProject.replace_placeholders doc r = doc.
Proof.
  intros Hno r. apply TemplateFacts.replace_placeholders_no_match.
  intros s key Hs _ Hocc. apply (Hno s Hs).
  by eapply TemplateFacts.token_occurs_braces.
Qed.

Lemma text_without_double_brace_is_kept_witness :
  CreateProject.replace_placeholders
    (JObject [("note", JArray [JString "a {single} brace"; JNumber (NInt 7)])])
    [("{", "x"); ("single", "{{single}}")]
  = JObject [("note", JArray [JString "a {single} brace"; JNumber (NInt 7)])].
Proof.
  apply (text_without_double_brace_is_kept
           (JObject [("note", JArray [JString "a {single} brace"; JNumber (NInt 7)])])).
  intros s Hs. apply PyStrFacts.contains_false.
  cbn in Hs. apply list_elem_of_singleton in Hs as ->. reflexivity.
Defined.
